(** * ConfidentialBonusPool: a shallow embedding of the Solidity contract

    The contract keeps a bonus pool twice: in the clear ([actualPool]) and
    under fully homomorphic encryption ([encryptedPool]).  Employees commit an
    encrypted performance score, and every disbursement goes through an
    asynchronous decryption request that the oracle answers through a
    callback.

    Storage is a record, a [mapping] is a total function updated with
    [<[k:=v]>], a reverting call yields [Revert reason] and no state, and the
    external ETH transfer of the two paying callbacks runs the recipient,
    which may call back into the contract. *)

From Stdlib Require Import ZArith List String Lia Bool.
From stdpp Require Import base tactics numbers functions.
Import ListNotations.

Local Open Scope string_scope.
Local Open Scope Z_scope.

(** ** Results of a transaction *)

Inductive result (A : Type) : Type :=
| Ok (a : A)
| Revert (reason : string).
Arguments Ok {A} a.
Arguments Revert {A} reason.

Definition bind {A B : Type} (r : result A) (k : A -> result B) : result B :=
  match r with
  | Ok a => k a
  | Revert e => Revert e
  end.

Notation "'let!' x ':=' r 'in' k" := (bind r (fun x => k))
  (at level 10, x name, r at level 100, k at level 200).
Notation "r ;;; k" := (bind r (fun _ => k))
  (at level 100, k at level 200, right associativity).

(** [require(cond, reason)] *)
Definition require (cond : bool) (reason : string) : result unit :=
  if cond then Ok tt else Revert reason.

(** ** Machine integers *)

Abbreviation address := Z (only parsing).
Definition address0 : address := 0.

Definition uint64_modulus : Z := 2 ^ 64.
Definition uint256_modulus : Z := 2 ^ 256.

Definition uint64 (x : Z) : Z := x mod uint64_modulus.

(** [abi.decode(cleartexts, (uint64))]: the word must fit the type. *)
Definition abi_decode_uint64 (w : Z) : result Z :=
  require ((0 <=? w) && (w <? uint64_modulus)) "abi.decode" ;;; Ok w.

(** ** Roles *)

Module Role.
Inductive t : Set := None | Intern | Junior | Mid | Senior | Lead.

Definition eqb (a b : t) : bool :=
  match a, b with
  | None, None | Intern, Intern | Junior, Junior
  | Mid, Mid | Senior, Senior | Lead, Lead => true
  | _, _ => false
  end.

#[global] Instance eq_dec : EqDecision t.
Proof. solve_decision. Defined.

(** Position in the enum declaration. *)
Definition rank (a : t) : Z :=
  match a with
  | None => 0 | Intern => 1 | Junior => 2 | Mid => 3 | Senior => 4 | Lead => 5
  end.
End Role.

(** ** The FHE library, seen through the plaintexts

    An [euint64] is a handle: the zero handle is the uninitialised one, every
    other handle designates a ciphertext, modelled by the 64-bit value it
    encrypts.  Arithmetic on ciphertexts is the arithmetic of [uint64] with
    wrap-around; an uninitialised operand counts as an encryption of 0.
    [FHE.allowThis] only grants the contract access to a handle and has no
    counterpart here. *)

Definition euint64 : Type := option Z.

Module FHE.
Definition isInitialized (v : euint64) : bool :=
  match v with Some _ => true | _ => false end.

Definition asEuint64 (x : Z) : euint64 := Some (uint64 x).

(** The cleartext the decryption oracle returns for a handle. *)
Definition decrypt (v : euint64) : Z :=
  match v with Some x => x | _ => 0 end.

Definition add (a b : euint64) : euint64 := Some (uint64 (decrypt a + decrypt b)).
Definition sub (a b : euint64) : euint64 := Some (uint64 (decrypt a - decrypt b)).
Definition mul (a b : euint64) : euint64 := Some (uint64 (decrypt a * decrypt b)).

(** Division by a cleartext scalar; the contract only divides by the
    literals 100 and 10000. *)
Definition div (a : euint64) (b : Z) : euint64 := Some (decrypt a / b).

(** [FHE.fromExternal(input, proof)]: the client's ciphertext, here the
    value [input] it encrypts, is accepted when its proof verifies; a
    well-formed 64-bit ciphertext holds a value below 2^64. *)
Definition fromExternal (input : Z) (proof : bool) : result euint64 :=
  require (proof && (0 <=? input) && (input <? uint64_modulus)) "InvalidInputProof" ;;;
  Ok (Some input).
End FHE.

(** ** Storage *)

Record Employee : Type := mkEmployee {
  performance : euint64;
  role : Role.t;
  hasWithdrawn : bool;
  hasCommitted : bool;
  decryptedBonus : Z
}.

(** The value of a mapping entry never written. *)
Definition Employee0 : Employee :=
  mkEmployee None Role.None false false 0.

Inductive Event : Type :=
| PoolFunded (manager : address) (amount requestId : Z)
| PerformanceCommitted (employee : address) (role : Role.t)
| BonusWithdrawn (employee : address) (bonus : Z)
| RemainingWithdrawn (manager : address) (amount : Z)
| BonusCalculated (requestId : Z) (employee : address).

(** The contract's storage, followed by what the chain and the FHE library
    keep for it: its ETH balance, the counter and the saved handle of its
    decryption requests (each request of this contract carries one handle,
    recorded by the value it encrypts), the events emitted and the ETH
    transfers made, newest first.  A [mapping] entry never written reads as
    zero, and [delete] writes zero. *)
Record State : Type := mkState {
  manager : address;
  actualPool : Z;
  encryptedPool : euint64;
  rolePercentage : Role.t -> Z;
  employees : address -> Employee;
  employeeList : list address;
  requestToEmployee : Z -> address;
  decryptionRequestIdPool : Z;
  decryptionRequestIdBonus : Z;
  _status : Z;
  balance : Z;
  counterRequest : Z;
  requestedHandles : Z -> option Z;
  events : list Event;
  transfers : list (address * Z)
}.

Definition set_actualPool (v : Z) (s : State) : State :=
  mkState (manager s) v (encryptedPool s) (rolePercentage s) (employees s)
    (employeeList s) (requestToEmployee s) (decryptionRequestIdPool s)
    (decryptionRequestIdBonus s) (_status s) (balance s) (counterRequest s)
    (requestedHandles s) (events s) (transfers s).

Definition set_encryptedPool (v : euint64) (s : State) : State :=
  mkState (manager s) (actualPool s) v (rolePercentage s) (employees s)
    (employeeList s) (requestToEmployee s) (decryptionRequestIdPool s)
    (decryptionRequestIdBonus s) (_status s) (balance s) (counterRequest s)
    (requestedHandles s) (events s) (transfers s).

Definition set_employees (v : address -> Employee) (s : State) : State :=
  mkState (manager s) (actualPool s) (encryptedPool s) (rolePercentage s) v
    (employeeList s) (requestToEmployee s) (decryptionRequestIdPool s)
    (decryptionRequestIdBonus s) (_status s) (balance s) (counterRequest s)
    (requestedHandles s) (events s) (transfers s).

Definition set_employeeList (v : list address) (s : State) : State :=
  mkState (manager s) (actualPool s) (encryptedPool s) (rolePercentage s)
    (employees s) v (requestToEmployee s) (decryptionRequestIdPool s)
    (decryptionRequestIdBonus s) (_status s) (balance s) (counterRequest s)
    (requestedHandles s) (events s) (transfers s).

Definition set_requestToEmployee (v : Z -> address) (s : State) : State :=
  mkState (manager s) (actualPool s) (encryptedPool s) (rolePercentage s)
    (employees s) (employeeList s) v (decryptionRequestIdPool s)
    (decryptionRequestIdBonus s) (_status s) (balance s) (counterRequest s)
    (requestedHandles s) (events s) (transfers s).

Definition set_decryptionRequestIdPool (v : Z) (s : State) : State :=
  mkState (manager s) (actualPool s) (encryptedPool s) (rolePercentage s)
    (employees s) (employeeList s) (requestToEmployee s) v
    (decryptionRequestIdBonus s) (_status s) (balance s) (counterRequest s)
    (requestedHandles s) (events s) (transfers s).

Definition set_decryptionRequestIdBonus (v : Z) (s : State) : State :=
  mkState (manager s) (actualPool s) (encryptedPool s) (rolePercentage s)
    (employees s) (employeeList s) (requestToEmployee s)
    (decryptionRequestIdPool s) v (_status s) (balance s) (counterRequest s)
    (requestedHandles s) (events s) (transfers s).

Definition set_status (v : Z) (s : State) : State :=
  mkState (manager s) (actualPool s) (encryptedPool s) (rolePercentage s)
    (employees s) (employeeList s) (requestToEmployee s)
    (decryptionRequestIdPool s) (decryptionRequestIdBonus s) v (balance s)
    (counterRequest s) (requestedHandles s) (events s) (transfers s).

Definition set_balance (v : Z) (s : State) : State :=
  mkState (manager s) (actualPool s) (encryptedPool s) (rolePercentage s)
    (employees s) (employeeList s) (requestToEmployee s)
    (decryptionRequestIdPool s) (decryptionRequestIdBonus s) (_status s) v
    (counterRequest s) (requestedHandles s) (events s) (transfers s).

Definition set_requests (c : Z) (h : Z -> option Z) (s : State) : State :=
  mkState (manager s) (actualPool s) (encryptedPool s) (rolePercentage s)
    (employees s) (employeeList s) (requestToEmployee s)
    (decryptionRequestIdPool s) (decryptionRequestIdBonus s) (_status s)
    (balance s) c h (events s) (transfers s).

Definition emit (e : Event) (s : State) : State :=
  mkState (manager s) (actualPool s) (encryptedPool s) (rolePercentage s)
    (employees s) (employeeList s) (requestToEmployee s)
    (decryptionRequestIdPool s) (decryptionRequestIdBonus s) (_status s)
    (balance s) (counterRequest s) (requestedHandles s) (e :: events s)
    (transfers s).

Definition log_transfer (to : address) (amount : Z) (s : State) : State :=
  mkState (manager s) (actualPool s) (encryptedPool s) (rolePercentage s)
    (employees s) (employeeList s) (requestToEmployee s)
    (decryptionRequestIdPool s) (decryptionRequestIdBonus s) (_status s)
    (balance s) (counterRequest s) (requestedHandles s) (events s)
    ((to, amount) :: transfers s).

Definition set_hasWithdrawn (v : bool) (e : Employee) : Employee :=
  mkEmployee (performance e) (role e) v (hasCommitted e) (decryptedBonus e).

Definition set_decryptedBonus (v : Z) (e : Employee) : Employee :=
  mkEmployee (performance e) (role e) (hasWithdrawn e) (hasCommitted e) v.

(** ** Modifiers *)

Definition onlyManager (sender : address) (s : State) : result unit :=
  require (sender =? manager s) "Only manager".

Definition nonReentrant (body : State -> result State) (s : State) : result State :=
  require (_status s =? 0) "Reentrancy" ;;;
  let! s' := body (set_status 1 s) in
  Ok (set_status 0 s').

(** ** The decryption oracle *)

(** [FHE.requestDecryption(cts, selector)]: the request takes the current
    counter as its id and saves the handle. *)
Definition requestDecryption (ct : euint64) (s : State) : Z * State :=
  let requestId := counterRequest s in
  (requestId,
   set_requests (requestId + 1)
     (<[requestId := Some (FHE.decrypt ct)]> (requestedHandles s)) s).

(** [FHE.checkSignatures(requestId, cleartexts, proof)]: the key management
    service signs only the true decryption of the handle saved for the
    request; [proof] tells whether the signatures presented are genuine. *)
Definition checkSignatures (requestId cleartexts : Z) (proof : bool) (s : State)
  : result unit :=
  match requestedHandles s requestId with
  | Some v => require (proof && (cleartexts =? v)) "InvalidKMSSignatures"
  | None => Revert "NoHandleFoundForRequestID"
  end.

(** ** Deployment *)

Definition constructor (sender : address) : State :=
  {| manager := sender;
     actualPool := 0;
     encryptedPool := FHE.asEuint64 0;
     rolePercentage :=
       <[Role.Lead := 2000]> (<[Role.Senior := 1200]> (<[Role.Mid := 800]>
         (<[Role.Junior := 500]> (<[Role.Intern := 200]> (fun _ => 0)))));
     employees := fun _ => Employee0;
     employeeList := [];
     requestToEmployee := fun _ => address0;
     decryptionRequestIdPool := 0;
     decryptionRequestIdBonus := 0;
     _status := 0;
     balance := 0;
     counterRequest := 0;
     requestedHandles := fun _ => None;
     events := [];
     transfers := [] |}.

(** ** 1. Manager: fund the bonus pool *)

Definition fundPool (sender : address) (value : Z) (encryptedAmount : Z)
    (proof : bool) (s : State) : result State :=
  let s := set_balance (balance s + value) s in
  onlyManager sender s ;;;
  require (0 <? value) "Must send ETH" ;;;
  require (actualPool s + value <? uint256_modulus) "Panic(0x11)" ;;;
  let s := set_actualPool (actualPool s + value) s in
  let! amount := FHE.fromExternal encryptedAmount proof in
  let s := set_encryptedPool (FHE.add (encryptedPool s) amount) s in
  let! ct := FHE.fromExternal encryptedAmount proof in
  let (requestId, s) := requestDecryption ct s in
  let s := set_decryptionRequestIdPool requestId s in
  Ok (emit (PoolFunded (manager s) value requestId) s).

Definition callbackVerifyPool (requestId cleartexts : Z) (proof : bool)
    (s : State) : result State :=
  checkSignatures requestId cleartexts proof s ;;;
  require (requestId =? decryptionRequestIdPool s) "Invalid request ID" ;;;
  let! decrypted := abi_decode_uint64 cleartexts in
  require (decrypted =? actualPool s) "Encrypted pool mismatch" ;;;
  Ok (set_decryptionRequestIdPool 0 s).

(** ** 2. Employee: commit performance and role *)

Definition commitPerformance (sender : address) (encryptedScore : Z)
    (proof : bool) (r : Role.t) (s : State) : result State :=
  require (negb (Role.eqb r Role.None)) "Invalid role" ;;;
  require (negb (hasWithdrawn (employees s sender))) "Already withdrawn" ;;;
  require (FHE.isInitialized (encryptedPool s)) "Pool not funded" ;;;
  require (negb (hasCommitted (employees s sender))) "Already committed performance" ;;;
  let! score := FHE.fromExternal encryptedScore proof in
  let s := set_employees
             (<[sender := mkEmployee score r false true 0]> (employees s)) s in
  let s := set_employeeList (employeeList s ++ [sender]) s in
  Ok (emit (PerformanceCommitted sender r) s).

(** ** 3. Employee: withdraw bonus *)

(** [emp.hasWithdrawn = true] *)
Definition markWithdrawn (sender : address) (s : State) : State :=
  set_employees
    (<[sender := set_hasWithdrawn true (employees s sender)]> (employees s)) s.

(** The bonus as the contract computes it on ciphertexts. *)
Definition encryptedBonus (perf : euint64) (pct : Z) (pool : euint64) : euint64 :=
  let rolePct := FHE.asEuint64 pct in
  let weightedPerf := FHE.div (FHE.mul perf rolePct) 100 in
  FHE.div (FHE.mul weightedPerf pool) 10000.

(** The rest of [withdrawBonus]: compute the bonus and request its
    decryption. *)
Definition openBonusRequest (sender : address) (s : State) : State :=
  let emp := employees s sender in
  let bonus :=
    encryptedBonus (performance emp) (rolePercentage s (role emp))
      (encryptedPool s) in
  let (requestId, s) := requestDecryption bonus s in
  let s := set_requestToEmployee (<[requestId := sender]> (requestToEmployee s)) s in
  let s := set_decryptionRequestIdBonus requestId s in
  emit (BonusCalculated requestId sender) s.

Definition withdrawBonus (sender : address) (s : State) : result State :=
  let emp := employees s sender in
  require (hasCommitted emp) "No performance committed" ;;;
  require (negb (hasWithdrawn emp)) "Already withdrawn" ;;;
  Ok (openBonusRequest sender (markWithdrawn sender s)).

(** [payable(to).call{value: amount}("")]: fails when the balance does not
    cover the amount or when the recipient, run by [rcv] on the contract as
    it stands during the call, reverts. *)
(** The state on which the recipient of a transfer starts running. *)
Definition during_transfer (to : address) (amount : Z) (s : State) : State :=
  log_transfer to amount (set_balance (balance s - amount) s).

Definition call_value (rcv : State -> option State) (to : address) (amount : Z)
    (s : State) : option State :=
  if balance s <? amount then None else rcv (during_transfer to amount s).

(** [callbackPayBonus] up to the transfer: the checks and the debit of both
    balances. *)
Definition payBonus_debit (requestId cleartexts : Z) (proof : bool) (s : State)
  : result (address * Z * State) :=
  checkSignatures requestId cleartexts proof s ;;;
  let employee := requestToEmployee s requestId in
  require (negb (employee =? address0)) "Invalid employee" ;;;
  let! bonus := abi_decode_uint64 cleartexts in
  require (0 <? bonus) "Bonus zero" ;;;
  require (bonus <=? actualPool s) "Insufficient pool funds" ;;;
  let s := set_encryptedPool
             (FHE.sub (encryptedPool s) (FHE.asEuint64 bonus)) s in
  let s := set_actualPool (actualPool s - bonus) s in
  Ok (employee, bonus, s).

(** [callbackPayBonus] after the transfer: record the bonus, delete the
    request. *)
Definition payBonus_record (requestId : Z) (employee : address) (bonus : Z)
    (s : State) : State :=
  let s := set_employees
             (<[employee := set_decryptedBonus bonus (employees s employee)]>
                (employees s)) s in
  let s := set_requestToEmployee
             (<[requestId := address0]> (requestToEmployee s)) s in
  emit (BonusWithdrawn employee bonus) s.

Definition callbackPayBonus (rcv : State -> option State)
    (requestId cleartexts : Z) (proof : bool) : State -> result State :=
  nonReentrant (fun s =>
    let! d := payBonus_debit requestId cleartexts proof s in
    let '(employee, bonus, s) := d in
    match call_value rcv employee bonus s with
    | Some s => Ok (payBonus_record requestId employee bonus s)
    | None => Revert "Failed to send ETH"
    end).

(** ** 4. Manager: withdraw remaining funds *)

Definition withdrawRemaining (sender : address) (s : State) : result State :=
  onlyManager sender s ;;;
  require (0 <? actualPool s) "No remaining funds" ;;;
  let (requestId, s) := requestDecryption (encryptedPool s) s in
  Ok (set_decryptionRequestIdPool requestId s).

(** [callbackWithdrawRemaining] up to the transfer. *)
Definition withdrawRemaining_reset (requestId cleartexts : Z) (proof : bool)
    (s : State) : result (Z * State) :=
  checkSignatures requestId cleartexts proof s ;;;
  require (requestId =? decryptionRequestIdPool s) "Invalid request ID" ;;;
  let! remaining := abi_decode_uint64 cleartexts in
  require (remaining <=? actualPool s) "Pool mismatch" ;;;
  require (0 <? remaining) "Nothing to withdraw" ;;;
  let amount := actualPool s in
  let s := set_actualPool 0 s in
  let s := set_encryptedPool (FHE.asEuint64 0) s in
  let s := set_decryptionRequestIdPool 0 s in
  Ok (amount, s).

Definition callbackWithdrawRemaining (rcv : State -> option State)
    (requestId cleartexts : Z) (proof : bool) : State -> result State :=
  nonReentrant (fun s =>
    let! d := withdrawRemaining_reset requestId cleartexts proof s in
    let '(amount, s) := d in
    match call_value rcv (manager s) amount s with
    | Some s => Ok (emit (RemainingWithdrawn (manager s) (uint64 amount)) s)
    | None => Revert "Failed to send ETH"
    end).

(** ** View functions *)

Definition getEmployeeInfo (emp : address) (s : State) : Role.t * bool * bool * Z :=
  let e := employees s emp in
  (role e, hasCommitted e, hasWithdrawn e, decryptedBonus e).

Definition getEmployeeCount (s : State) : Z := Z.of_nat (length (employeeList s)).

Definition getEmployeeAt (index : Z) (s : State) : result address :=
  require ((0 <=? index) && (index <? getEmployeeCount s)) "Index out of bounds" ;;;
  Ok (nth (Z.to_nat index) (employeeList s) address0).

(** ** Transactions

    A call names an entry point and carries its arguments, with [msg.sender]
    where the entry point reads it and [msg.value] where it is payable; the
    two paying callbacks also carry the behaviour of the recipient of the
    transfer: it accepts or rejects the ETH, after any number of calls back
    into the contract, whose reverts it survives. *)

Inductive Call : Type :=
| FundPool (sender : address) (value : Z) (encryptedAmount : Z) (proof : bool)
| CallbackVerifyPool (requestId cleartexts : Z) (proof : bool)
| CommitPerformance (sender : address) (encryptedScore : Z) (proof : bool)
    (r : Role.t)
| WithdrawBonus (sender : address)
| CallbackPayBonus (requestId cleartexts : Z) (proof : bool) (rcv : Receiver)
| WithdrawRemaining (sender : address)
| CallbackWithdrawRemaining (requestId cleartexts : Z) (proof : bool)
    (rcv : Receiver)
| Receive (value : Z)
with Receiver : Type :=
| Accept
| Reject
| Reenter (c : Call) (k : Receiver).

(** The state a call leaves: a revert undoes everything. *)
Definition state_after (s : State) (r : result State) : State :=
  match r with
  | Ok s' => s'
  | Revert _ => s
  end.

Fixpoint exec (c : Call) (s : State) {struct c} : result State :=
  match c with
  | FundPool sender value encryptedAmount proof =>
      fundPool sender value encryptedAmount proof s
  | CallbackVerifyPool requestId cleartexts proof =>
      callbackVerifyPool requestId cleartexts proof s
  | CommitPerformance sender encryptedScore proof r =>
      commitPerformance sender encryptedScore proof r s
  | WithdrawBonus sender => withdrawBonus sender s
  | CallbackPayBonus requestId cleartexts proof rcv =>
      callbackPayBonus (receive rcv) requestId cleartexts proof s
  | WithdrawRemaining sender => withdrawRemaining sender s
  | CallbackWithdrawRemaining requestId cleartexts proof rcv =>
      callbackWithdrawRemaining (receive rcv) requestId cleartexts proof s
  | Receive value => Ok (set_balance (balance s + value) s)
  end
with receive (rcv : Receiver) (s : State) {struct rcv} : option State :=
  match rcv with
  | Accept => Some s
  | Reject => None
  | Reenter c k => receive k (state_after s (exec c s))
  end.

(** A sequence of transactions, each starting where the last one ended; a
    reverted transaction leaves the state as it was. *)
Definition run (cs : list Call) (s : State) : State :=
  fold_left (fun s c => state_after s (exec c s)) cs s.

(** ** Reachable states and what they satisfy *)

Inductive reachable : State -> Prop :=
| reach_deploy (deployer : address) : reachable (constructor deployer)
| reach_exec (c : Call) (s s' : State) :
    reachable s -> exec c s = Ok s' -> reachable s'.

(** Every registered bonus request belongs to an employee already flagged as
    withdrawn, an employee not flagged has no bonus recorded, request ids
    from the counter on are unused, the role percentages are those of
    deployment, and the encrypted pool is an initialised handle. *)
Record Inv (s : State) : Prop := mkInv {
  inv_pending : forall id,
    requestToEmployee s id <> address0 ->
    hasWithdrawn (employees s (requestToEmployee s id)) = true;
  inv_bonus : forall a,
    hasWithdrawn (employees s a) = false -> decryptedBonus (employees s a) = 0;
  inv_fresh : forall id,
    counterRequest s <= id -> requestedHandles s id = None;
  inv_pct : forall r,
    rolePercentage s r = rolePercentage (constructor address0) r;
  inv_pool : FHE.isInitialized (encryptedPool s) = true
}.

(** What every entry point without a transfer leaves as it was. *)
Record Frame (s s' : State) : Prop := mkFrame {
  fr_status : _status s' = _status s;
  fr_transfers : transfers s' = transfers s;
  fr_manager : manager s' = manager s;
  fr_pct : forall r, rolePercentage s' r = rolePercentage s r;
  fr_counter : counterRequest s <= counterRequest s';
  fr_handles : forall id,
    id < counterRequest s -> requestedHandles s' id = requestedHandles s id;
  fr_withdrawn : forall a,
    hasWithdrawn (employees s a) = true -> hasWithdrawn (employees s' a) = true;
  fr_committed : forall a,
    hasCommitted (employees s a) = true -> hasCommitted (employees s' a) = true;
  fr_closed : forall id,
    id < counterRequest s -> requestToEmployee s id = address0 ->
    requestToEmployee s' id = address0
}.

(** Started from a state with the invariant, such an entry point keeps it
    and records no bonus. *)
Definition Quiet (s s' : State) : Prop :=
  Inv s ->
  Inv s' /\
  forall a, decryptedBonus (employees s' a) = decryptedBonus (employees s a).

(** What a top-level call preserves. *)
Record Step (s s' : State) : Prop := mkStep {
  st_manager : manager s' = manager s;
  st_pct : forall r, rolePercentage s' r = rolePercentage s r;
  st_counter : counterRequest s <= counterRequest s';
  st_handles : forall id,
    id < counterRequest s -> requestedHandles s' id = requestedHandles s id;
  st_withdrawn : forall a,
    hasWithdrawn (employees s a) = true -> hasWithdrawn (employees s' a) = true;
  st_committed : forall a,
    hasCommitted (employees s a) = true -> hasCommitted (employees s' a) = true;
  st_bonus : forall a,
    decryptedBonus (employees s' a) <> decryptedBonus (employees s a) ->
    hasWithdrawn (employees s a) = true;
  st_closed : forall id,
    id < counterRequest s -> requestToEmployee s id = address0 ->
    requestToEmployee s' id = address0
}.



(** ** Scenarios *)

Definition theManager : address := 1.
Definition anEmployee : address := 2.

(** The pool funded with 1_000_000 and verified (request 0), an employee
    committed with score 80 as Mid and asked for the bonus: request 1 is
    pending. *)
Definition bonus_requested : State :=
  run [FundPool theManager 1000000 1000000 true;
       CallbackVerifyPool 0 1000000 true;
       CommitPerformance anEmployee 80 true Role.Mid;
       WithdrawBonus anEmployee]
    (constructor theManager).

(** The oracle answers request 1 with the bonus, 64_000, and the employee
    accepts the ETH. *)
Definition bonus_paid : State :=
  run [CallbackPayBonus 1 64000 true Accept] bonus_requested.

(** The pool funded with 1_000_000 and verified, and the manager asked for
    the remainder: request 1 is pending in the pool slot. *)
Definition remainder_requested : State :=
  run [FundPool theManager 1000000 1000000 true;
       CallbackVerifyPool 0 1000000 true;
       WithdrawRemaining theManager]
    (constructor theManager).

(** A first funding of 5 verified, then a second funding of 3 with a
    ciphertext of 3: request 1 is pending in the pool slot. *)
Definition second_funding_honest : State :=
  run [FundPool theManager 5 5 true;
       CallbackVerifyPool 0 5 true;
       FundPool theManager 3 3 true]
    (constructor theManager).

(** The same, the second funding sending 3 with a ciphertext of 8. *)
Definition second_funding_inflated : State :=
  run [FundPool theManager 5 5 true;
       CallbackVerifyPool 0 5 true;
       FundPool theManager 3 8 true]
    (constructor theManager).

(** The bonus formula of the specification, over the integers. *)
Definition spec_bonus (score pct pool : Z) : Z :=
  (score * pct / 100) * pool / 10000.

(** The bonus the contract computes for a score, a role and a pool, with
    the percentages of deployment. *)
Definition bonus (score : Z) (r : Role.t) (pool : Z) : Z :=
  FHE.decrypt
    (encryptedBonus (Some score) (rolePercentage (constructor address0) r)
       (Some pool)).

(** A pool of 0.01 ETH (10^16 wei), an employee committed with score 100 as
    Lead and asked for the bonus: request 1 is pending. *)
Definition large_pool_requested : State :=
  run [FundPool theManager (10 ^ 16) (10 ^ 16) true;
       CommitPerformance anEmployee 100 true Role.Lead;
       WithdrawBonus anEmployee]
    (constructor theManager).

(** The pool funded with 1_000_000, the verification, request 0, still
    pending in the pool slot. *)
Definition funding_requested : State :=
  run [FundPool theManager 1000000 1000000 true] (constructor theManager).

(** C4 as the specification words its last part: the recorded bonus of a
    participant changes only in a call that turns the withdrawn flag from
    false to true. *)
Definition bonus_written_when_flag_turns : Prop :=
  forall c s s' a,
    reachable s -> exec c s = Ok s' ->
    decryptedBonus (employees s' a) <> decryptedBonus (employees s a) ->
    hasWithdrawn (employees s a) = false /\
    hasWithdrawn (employees s' a) = true.


(** ** Whole transactions, and what the contract keeps across them *)

(** [ok] holds of a call and of every call made by the recipients of its
    transfers. *)
Fixpoint every_call (ok : Call -> bool) (c : Call) {struct c} : bool :=
  ok c &&
  match c with
  | CallbackPayBonus _ _ _ rcv | CallbackWithdrawRemaining _ _ _ rcv =>
      every_reentry ok rcv
  | _ => true
  end
with every_reentry (ok : Call -> bool) (rcv : Receiver) {struct rcv} : bool :=
  match rcv with
  | Reenter c k => every_call ok c && every_reentry ok k
  | _ => true
  end.

(** [msg.value] is a [uint256]. *)
Definition value_is_uint256 (c : Call) : bool :=
  match c with
  | FundPool _ value _ _ | Receive value =>
      (0 <=? value) && (value <? uint256_modulus)
  | _ => true
  end.

(** The funder encrypts the amount it sends. *)
Definition funds_what_it_encrypts (c : Call) : bool :=
  match c with
  | FundPool _ value encryptedAmount _ => value =? encryptedAmount
  | _ => true
  end.

(** The contract holds the ETH of its cleartext pool. *)
Definition solvent (s : State) : Prop := 0 <= actualPool s <= balance s.

(** The encrypted pool encrypts the cleartext pool, up to the 64 bits of
    the ciphertext. *)
Definition pools_agree (s : State) : Prop :=
  0 <= actualPool s /\ FHE.decrypt (encryptedPool s) = uint64 (actualPool s).

(** The [BonusWithdrawn] events of an employee. *)
Definition is_bonus_of (a : address) (e : Event) : bool :=
  match e with
  | BonusWithdrawn employee _ => employee =? a
  | _ => false
  end.

Definition bonuses_paid (a : address) (s : State) : list Event :=
  List.filter (is_bonus_of a) (events s).

(** The employee list is the set of committed addresses, an address that
    never committed has the zero record, a withdrawn flag needs a
    commitment, registered requests have ids below the counter and
    distinct employees, none of them paid yet, and an employee has either
    no [BonusWithdrawn] event and no bonus recorded, or one event, which
    carries the bonus recorded. *)
Record Ledger (s : State) : Prop := mkLedger {
  lg_nodup : List.NoDup (employeeList s);
  lg_list : forall a,
    In a (employeeList s) <-> hasCommitted (employees s a) = true;
  lg_blank : forall a,
    hasCommitted (employees s a) = false -> employees s a = Employee0;
  lg_fresh : forall id,
    counterRequest s <= id -> requestToEmployee s id = address0;
  lg_unique : forall id1 id2,
    requestToEmployee s id1 <> address0 ->
    requestToEmployee s id1 = requestToEmployee s id2 -> id1 = id2;
  lg_pending : forall id,
    requestToEmployee s id <> address0 ->
    bonuses_paid (requestToEmployee s id) s = [];
  lg_paid : forall a,
    (bonuses_paid a s = [] /\ decryptedBonus (employees s a) = 0) \/
    (bonuses_paid a s = [BonusWithdrawn a (decryptedBonus (employees s a))] /\
     hasWithdrawn (employees s a) = true)
}.

(** What no call changes: the role and the score of a committed employee,
    and the employees already listed. *)
Record Keep (s s' : State) : Prop := mkKeep {
  keep_employee : forall a,
    hasCommitted (employees s a) = true ->
    hasCommitted (employees s' a) = true /\
    role (employees s' a) = role (employees s a) /\
    performance (employees s' a) = performance (employees s a);
  keep_list : exists l, employeeList s' = (employeeList s ++ l)%list
}.

(** The calls that end in a transfer of ETH. *)
Definition pays (c : Call) : bool :=
  match c with
  | CallbackPayBonus _ _ _ _ | CallbackWithdrawRemaining _ _ _ _ => true
  | _ => false
  end.

(** The registry below the counter is left as it is. *)
Definition SameRegistry (s s' : State) : Prop :=
  forall id,
    id < counterRequest s -> requestToEmployee s' id = requestToEmployee s id.

(** A whole round: funding, verification, commitment, bonus request and its
    payment, then the remainder, requested and paid. *)
Definition a_round : list Call :=
  [FundPool theManager 1000000 1000000 true;
   CallbackVerifyPool 0 1000000 true;
   CommitPerformance anEmployee 80 true Role.Mid;
   WithdrawBonus anEmployee;
   CallbackPayBonus 1 64000 true Accept;
   WithdrawRemaining theManager;
   CallbackWithdrawRemaining 2 936000 true Accept].

(** An employee committed on the pool just deployed, never funded. *)
Definition committed_unfunded : State :=
  run [CommitPerformance anEmployee 80 true Role.Mid] (constructor theManager).

(** The calls a recipient makes while it holds a transfer. *)
Fixpoint calls_back (rcv : Receiver) : list Call :=
  match rcv with
  | Reenter c k => c :: calls_back k
  | _ => []
  end.

(** The entry points that write the pool slot and can run while a transfer
    is in progress (the remainder callback cannot: it is guarded). *)
Definition writes_pool_slot (c : Call) : bool :=
  match c with
  | FundPool _ _ _ _ | CallbackVerifyPool _ _ _ | WithdrawRemaining _ => true
  | _ => false
  end.

(** The entry point that writes the bonus registry and can run while a
    transfer is in progress (the bonus callback cannot: it is guarded). *)
Definition writes_bonus_registry (c : Call) : bool :=
  match c with
  | WithdrawBonus _ => true
  | _ => false
  end.

(** The bonus whose decryption is requested, request 1, when the pool is
    funded with 0.01 ETH (10^16 wei) and an employee commits a score and a
    role and withdraws. *)
Definition large_pool_request (score : Z) (r : Role.t) : option Z :=
  requestedHandles
    (run [FundPool theManager (10 ^ 16) (10 ^ 16) true;
          CommitPerformance anEmployee score true r;
          WithdrawBonus anEmployee]
       (constructor theManager)) 1.

(** ** Basic facts about the result monad *)

Lemma bind_Ok {A B : Type} (r : result A) (k : A -> result B) (b : B) :
  bind r k = Ok b -> exists a, r = Ok a /\ k a = Ok b.
Proof. destruct r as [a|e]; simpl; intros H; [eauto | discriminate]. Qed.

Lemma require_Ok (c : bool) (m : string) (u : unit) :
  require c m = Ok u -> c = true.
Proof. destruct c; simpl; [reflexivity | discriminate]. Qed.

Lemma fromExternal_Ok (x : Z) (p : bool) (v : euint64) :
  FHE.fromExternal x p = Ok v -> v = Some x /\ p = true /\ 0 <= x < uint64_modulus.
Proof.
  unfold FHE.fromExternal. intros H.
  apply bind_Ok in H as [u [Hr Hk]]. apply require_Ok in Hr.
  apply andb_true_iff in Hr as [Hr Hlt]. apply andb_true_iff in Hr as [Hp Hle].
  inversion Hk. split; [reflexivity | split; [assumption | lia]].
Qed.

Lemma abi_decode_Ok (w v : Z) :
  abi_decode_uint64 w = Ok v -> v = w /\ 0 <= w < uint64_modulus.
Proof.
  unfold abi_decode_uint64. intros H.
  apply bind_Ok in H as [u [Hr Hk]]. apply require_Ok in Hr.
  apply andb_true_iff in Hr as [Hle Hlt]. inversion Hk. split; [reflexivity | lia].
Qed.

(** Peel the successful prefix of a monadic body. *)
Ltac peel H :=
  repeat match type of H with
  | bind (require _ _) _ = Ok _ =>
      let u := fresh "u" in let Hc := fresh "Hc" in
      apply bind_Ok in H as [u [Hc H]]; apply require_Ok in Hc; clear u
  | bind (FHE.fromExternal _ _) _ = Ok _ =>
      let v := fresh "v" in let Hx := fresh "Hx" in
      apply bind_Ok in H as [v [Hx H]];
      apply fromExternal_Ok in Hx as [-> Hx]
  | bind (abi_decode_uint64 _) _ = Ok _ =>
      let v := fresh "v" in let Hd := fresh "Hd" in
      apply bind_Ok in H as [v [Hd H]];
      apply abi_decode_Ok in Hd as [-> Hd]
  | bind _ _ = Ok _ =>
      let v := fresh "v" in let Hb := fresh "Hb" in
      apply bind_Ok in H as [v [Hb H]]
  end.

(** Turn the boolean tests of passed [require]s into propositions. *)
Ltac boolp :=
  repeat match goal with
  | H : negb _ = true |- _ => apply negb_true_iff in H
  | H : (_ && _)%bool = true |- _ =>
      apply andb_true_iff in H; destruct H
  | H : (_ =? _) = true |- _ => apply Z.eqb_eq in H
  | H : (_ =? _) = false |- _ => apply Z.eqb_neq in H
  | H : (_ <? _) = true |- _ => apply Z.ltb_lt in H
  | H : (_ <=? _) = true |- _ => apply Z.leb_le in H
  end.

(** Split a conjunction into its parts. *)
Ltac conjs := repeat match goal with |- _ /\ _ => split end.

Lemma fn_insert_case {T : Type} (f : Z -> T) (a b : Z) (t : T) :
  (a = b /\ <[a:=t]> f b = t) \/ (a <> b /\ <[a:=t]> f b = f b).
Proof.
  destruct (decide (a = b)) as [->|Hne].
  - left. split; [reflexivity | apply fn_lookup_insert].
  - right. split; [assumption | apply fn_lookup_insert_ne; assumption].
Qed.

(** ** The frame is a preorder *)

Lemma Frame_refl (s : State) : Frame s s.
Proof. constructor; intros; try reflexivity; try assumption; lia. Qed.

Lemma Frame_trans (s1 s2 s3 : State) : Frame s1 s2 -> Frame s2 s3 -> Frame s1 s3.
Proof.
  intros [] []. constructor; intros; try congruence; try lia; eauto.
  - rewrite fr_handles1 by lia. eauto.
  - apply fr_closed1; [lia | eauto].
Qed.

Lemma Quiet_refl (s : State) : Quiet s s.
Proof. intros HI. split; [assumption | reflexivity]. Qed.

Lemma Quiet_trans (s1 s2 s3 : State) : Quiet s1 s2 -> Quiet s2 s3 -> Quiet s1 s3.
Proof.
  intros Q1 Q2 HI. destruct (Q1 HI) as [I2 B1]. destruct (Q2 I2) as [I3 B2].
  split; [assumption | intros a; rewrite B2; apply B1].
Qed.

Lemma Inv_constructor (deployer : address) : Inv (constructor deployer).
Proof.
  constructor; simpl; intros; try reflexivity.
  exfalso. apply H. reflexivity.
Qed.

Ltac insert_cases :=
  repeat match goal with
  | |- context [@insert _ _ _ _ ?a ?t ?f ?b] =>
      let E := fresh "E" in
      destruct (fn_insert_case f a b t) as [[? E]|[? E]];
      rewrite ?E in *; clear E; try (exfalso; congruence)
  | H : context [@insert _ _ _ _ ?a ?t ?f ?b] |- _ =>
      let E := fresh "E" in
      destruct (fn_insert_case f a b t) as [[? E]|[? E]];
      rewrite ?E in *; clear E; try (exfalso; congruence)
  end.

Ltac finish :=
  intros; simpl in *; insert_cases; subst; simpl in *;
  try reflexivity; try assumption; try congruence; try lia; eauto.

Lemma fundPool_frame sender value x p s s' :
  fundPool sender value x p s = Ok s' -> Frame s s' /\ Quiet s s'.
Proof.
  unfold fundPool. intros H. peel H.
  unfold requestDecryption in H. simpl in H. inversion H; subst; clear H.
  split.
  - constructor; finish.
  - intros []. split; [constructor|]; finish. apply inv_fresh0. lia.
Qed.

Lemma callbackVerifyPool_frame id c p s s' :
  callbackVerifyPool id c p s = Ok s' -> Frame s s' /\ Quiet s s'.
Proof.
  unfold callbackVerifyPool. intros H. peel H.
  inversion H; subst; clear H. split.
  - constructor; finish.
  - intros []. split; [constructor|]; finish.
Qed.

Lemma commitPerformance_frame sender x p r s s' :
  commitPerformance sender x p r s = Ok s' -> Frame s s' /\ Quiet s s'.
Proof.
  unfold commitPerformance. intros H. peel H.
  inversion H; subst; clear H. boolp. split.
  - constructor; finish.
  - intros []. split; [constructor|]; finish.
    + specialize (inv_pending0 id H). congruence.
    + symmetry. apply inv_bonus0. assumption.
Qed.

Lemma withdrawBonus_frame sender s s' :
  withdrawBonus sender s = Ok s' -> Frame s s' /\ Quiet s s'.
Proof.
  unfold withdrawBonus. intros H. peel H.
  inversion H; subst; clear H. boolp.
  unfold openBonusRequest, markWithdrawn, requestDecryption. simpl. split.
  - constructor; finish.
  - intros []. split; [constructor|]; finish. apply inv_fresh0. lia.
Qed.

Lemma withdrawRemaining_frame sender s s' :
  withdrawRemaining sender s = Ok s' -> Frame s s' /\ Quiet s s'.
Proof.
  unfold withdrawRemaining. intros H. peel H.
  unfold requestDecryption in H. simpl in H. inversion H; subst; clear H.
  split.
  - constructor; finish.
  - intros []. split; [constructor|]; finish. apply inv_fresh0. lia.
Qed.

Lemma nonReentrant_locked body s :
  _status s <> 0 -> nonReentrant body s = Revert "Reentrancy".
Proof.
  intros H. unfold nonReentrant.
  destruct (Z.eqb_spec (_status s) 0) as [E|E]; [contradiction | reflexivity].
Qed.

(** With the guard taken, a successful call is one without a transfer. *)
Lemma exec_locked c s s' :
  _status s <> 0 -> exec c s = Ok s' -> Frame s s' /\ Quiet s s'.
Proof.
  intros Hl H. destruct c; simpl in H.
  - apply fundPool_frame in H; assumption.
  - apply callbackVerifyPool_frame in H; assumption.
  - apply commitPerformance_frame in H; assumption.
  - apply withdrawBonus_frame in H; assumption.
  - unfold callbackPayBonus in H.
    rewrite nonReentrant_locked in H by assumption. discriminate.
  - apply withdrawRemaining_frame in H; assumption.
  - unfold callbackWithdrawRemaining in H.
    rewrite nonReentrant_locked in H by assumption. discriminate.
  - inversion H; subst; clear H. split.
    + constructor; finish.
    + intros []. split; [constructor|]; finish.
Qed.

Lemma receive_locked rcv : forall s s',
  _status s <> 0 -> receive rcv s = Some s' -> Frame s s' /\ Quiet s s'.
Proof.
  induction rcv as [| |c k IH]; simpl; intros s s' Hl H.
  - inversion H; subst. split; [apply Frame_refl | apply Quiet_refl].
  - discriminate.
  - destruct (exec c s) as [s1|e] eqn:E; simpl in H.
    + destruct (exec_locked _ _ _ Hl E) as [F1 Q1].
      destruct (IH s1 s') as [F2 Q2]; auto.
      * rewrite (fr_status _ _ F1). assumption.
      * split; [eapply Frame_trans | eapply Quiet_trans]; eassumption.
    + apply IH; assumption.
Qed.

Lemma Frame_Step s s' :
  Frame s s' ->
  (forall a, decryptedBonus (employees s' a) = decryptedBonus (employees s a)) ->
  Step s s'.
Proof. intros [] B. constructor; auto; try congruence. Qed.

Lemma payBonus_debit_Ok id c p s e b mid :
  payBonus_debit id c p s = Ok (e, b, mid) ->
  checkSignatures id c p s = Ok tt /\
  e = requestToEmployee s id /\ e <> address0 /\ b = c /\
  0 < c <= actualPool s /\ c < uint64_modulus /\
  mid = set_actualPool (actualPool s - c)
          (set_encryptedPool (FHE.sub (encryptedPool s) (FHE.asEuint64 c)) s).
Proof.
  unfold payBonus_debit. intros H.
  apply bind_Ok in H as [[] [Hs H]]. peel H.
  inversion H; subst; clear H. boolp.
  repeat split; try assumption; try lia.
Qed.

Lemma call_value_Some rcvf to amount s s' :
  call_value rcvf to amount s = Some s' ->
  amount <= balance s /\ rcvf (during_transfer to amount s) = Some s'.
Proof.
  unfold call_value. destruct (Z.ltb_spec (balance s) amount) as [Hlt|Hge];
    [discriminate|].
  intros Hr. split; [lia | assumption].
Qed.

Lemma nonReentrant_Ok body s s' :
  nonReentrant body s = Ok s' ->
  _status s = 0 /\ exists s1, body (set_status 1 s) = Ok s1 /\ s' = set_status 0 s1.
Proof.
  unfold nonReentrant. intros H. peel H.
  inversion H; subst. boolp. split; [assumption | eauto].
Qed.

Lemma callbackPayBonus_Ok rcvf id c p s s' :
  callbackPayBonus rcvf id c p s = Ok s' ->
  _status s = 0 /\
  exists e mid mid',
    payBonus_debit id c p (set_status 1 s) = Ok (e, c, mid) /\
    c <= balance mid /\
    rcvf (during_transfer e c mid) = Some mid' /\
    s' = set_status 0 (payBonus_record id e c mid').
Proof.
  unfold callbackPayBonus. intros H.
  apply nonReentrant_Ok in H as [H0 [s1 [H ->]]]. split; [assumption|].
  apply bind_Ok in H as [[[e b] mid] [Hd H]].
  destruct (call_value rcvf e b mid) as [mid'|] eqn:Hc; [|discriminate].
  inversion H; subst; clear H.
  pose proof (payBonus_debit_Ok _ _ _ _ _ _ _ Hd) as (_ & _ & _ & -> & _).
  apply call_value_Some in Hc as [Hb Hr].
  exists e, mid, mid'. auto.
Qed.

Lemma withdrawRemaining_reset_Ok id c p s amount mid :
  withdrawRemaining_reset id c p s = Ok (amount, mid) ->
  checkSignatures id c p s = Ok tt /\
  id = decryptionRequestIdPool s /\
  0 < c <= actualPool s /\ c < uint64_modulus /\
  amount = actualPool s /\
  mid = set_decryptionRequestIdPool 0
          (set_encryptedPool (FHE.asEuint64 0) (set_actualPool 0 s)).
Proof.
  unfold withdrawRemaining_reset. intros H.
  apply bind_Ok in H as [[] [Hs H]]. peel H.
  inversion H; subst; clear H. boolp.
  repeat split; try assumption; try lia.
Qed.

Lemma callbackWithdrawRemaining_Ok rcvf id c p s s' :
  callbackWithdrawRemaining rcvf id c p s = Ok s' ->
  _status s = 0 /\
  exists mid mid',
    withdrawRemaining_reset id c p (set_status 1 s) = Ok (actualPool s, mid) /\
    actualPool s <= balance mid /\
    rcvf (during_transfer (manager s) (actualPool s) mid) = Some mid' /\
    s' = set_status 0
           (emit (RemainingWithdrawn (manager mid') (uint64 (actualPool s))) mid').
Proof.
  unfold callbackWithdrawRemaining. intros H.
  apply nonReentrant_Ok in H as [H0 [s1 [H ->]]]. split; [assumption|].
  apply bind_Ok in H as [[amount mid] [Hd H]].
  destruct (call_value rcvf (manager mid) amount mid) as [mid'|] eqn:Hc; [|discriminate].
  inversion H; subst; clear H.
  pose proof (withdrawRemaining_reset_Ok _ _ _ _ _ _ Hd) as (_ & _ & _ & _ & Ha & Hm).
  simpl in Ha. subst amount.
  apply call_value_Some in Hc as [Hb Hr].
  assert (Hmg : manager mid = manager s) by (rewrite Hm; reflexivity).
  rewrite Hmg in Hr.
  exists mid, mid'. auto.
Qed.

(** The invariant only reads the registry, the employees, the oracle's
    bookkeeping and the percentages. *)
Lemma Inv_ext s t :
  requestToEmployee t = requestToEmployee s ->
  employees t = employees s ->
  counterRequest t = counterRequest s ->
  requestedHandles t = requestedHandles s ->
  rolePercentage t = rolePercentage s ->
  FHE.isInitialized (encryptedPool t) = true ->
  Inv s -> Inv t.
Proof.
  intros E1 E2 E3 E4 E5 E6 []. constructor; rewrite ?E1, ?E2, ?E3, ?E4, ?E5; auto.
Qed.

Lemma quiet_step s s' : Inv s -> Frame s s' /\ Quiet s s' -> Inv s' /\ Step s s'.
Proof.
  intros HI [F Q]. destruct (Q HI) as [HI' B].
  split; [assumption | apply Frame_Step; assumption].
Qed.

Lemma exec_step c s s' : Inv s -> exec c s = Ok s' -> Inv s' /\ Step s s'.
Proof.
  intros HI H. destruct c; simpl in H.
  - apply fundPool_frame in H. apply quiet_step; assumption.
  - apply callbackVerifyPool_frame in H. apply quiet_step; assumption.
  - apply commitPerformance_frame in H. apply quiet_step; assumption.
  - apply withdrawBonus_frame in H. apply quiet_step; assumption.
  - apply callbackPayBonus_Ok in H as (H0 & e & mid & mid' & Hd & Hb & Hr & ->).
    apply payBonus_debit_Ok in Hd as (_ & He & Hne & _ & _ & _ & Hm).
    simpl in He.
    assert (HIm : Inv (during_transfer e cleartexts mid))
      by (subst mid; revert HI; apply Inv_ext; reflexivity).
    apply receive_locked in Hr as [F Q]; [| subst mid; simpl; lia].
    destruct (Q HIm) as [HI' B].
    assert (Hw : hasWithdrawn (employees s e) = true)
      by (subst e; apply (inv_pending _ HI); assumption).
    assert (Hw' : hasWithdrawn (employees mid' e) = true)
      by (apply (fr_withdrawn _ _ F); subst mid; assumption).
    destruct F, HI'. subst mid. simpl in *. split.
    + constructor; finish.
    + constructor; finish.
  - apply withdrawRemaining_frame in H. apply quiet_step; assumption.
  - apply callbackWithdrawRemaining_Ok in H as (H0 & mid & mid' & Hd & Hb & Hr & ->).
    apply withdrawRemaining_reset_Ok in Hd as (_ & _ & _ & _ & _ & Hm).
    assert (HIm : Inv (during_transfer (manager s) (actualPool s) mid))
      by (subst mid; revert HI; apply Inv_ext; reflexivity).
    apply receive_locked in Hr as [F Q]; [| subst mid; simpl; lia].
    destruct (Q HIm) as [HI' B].
    destruct F, HI'. subst mid. simpl in *. split.
    + constructor; finish.
    + constructor; finish.
  - inversion H; subst; clear H. split.
    + destruct HI. constructor; finish.
    + constructor; finish.
Qed.

Lemma reachable_Inv s : reachable s -> Inv s.
Proof.
  induction 1 as [d | c s s' _ IH H].
  - apply Inv_constructor.
  - apply (exec_step c s s' IH H).
Qed.

(** ** Claims *)

Lemma reachable_run (cs : list Call) : forall s, reachable s -> reachable (run cs s).
Proof.
  induction cs as [|c cs IH]; simpl; intros s H; [assumption|].
  apply IH. destruct (exec c s) as [s1|e] eqn:E; simpl; [|assumption].
  eapply reach_exec; eassumption.
Qed.

Lemma checkSignatures_ext id c p s t :
  requestedHandles t id = requestedHandles s id ->
  checkSignatures id c p t = checkSignatures id c p s.
Proof. unfold checkSignatures. intros ->. reflexivity. Qed.

Lemma checkSignatures_Ok id c p s u :
  checkSignatures id c p s = Ok u ->
  requestedHandles s id = Some c /\ p = true.
Proof.
  unfold checkSignatures. destruct (requestedHandles s id) as [v|]; [|discriminate].
  intros H. apply require_Ok in H. boolp. subst. auto.
Qed.

(** A request that is closed stays closed, whatever is called next. *)
Lemma closed_stays (cs : list Call) : forall s id,
  Inv s -> id < counterRequest s -> requestToEmployee s id = address0 ->
  requestToEmployee (run cs s) id = address0.
Proof.
  induction cs as [|c cs IH]; simpl; intros s id HI Hlt H0; [assumption|].
  destruct (exec c s) as [s1|e] eqn:E; simpl; [|apply IH; assumption].
  destruct (exec_step c s s1 HI E) as [HI1 St].
  apply IH; [assumption | |].
  - pose proof (st_counter _ _ St). lia.
  - apply (st_closed _ _ St); assumption.
Qed.

(** The bonus callback reverts on an id that is not registered. *)
Lemma callbackPayBonus_unregistered id c p rcv s :
  requestToEmployee s id = address0 ->
  exists reason, exec (CallbackPayBonus id c p rcv) s = Revert reason.
Proof.
  intros H0. simpl. unfold callbackPayBonus, nonReentrant.
  destruct (_status s =? 0); simpl; [|eauto].
  unfold payBonus_debit.
  destruct (checkSignatures id c p _) as [u|e]; simpl; [|eauto].
  rewrite H0. simpl. eauto.
Qed.

(** C10: the funding entry point is for the manager only: from any other
    caller it reverts with "Only manager", whatever the value and the
    ciphertext sent, and the state, that is every balance, employee record
    and request slot, stays as it was. *)
Theorem fundPool_only_manager (sender value x : Z) (p : bool) (s : State) :
  sender <> manager s ->
  exec (FundPool sender value x p) s = Revert "Only manager" /\
  state_after s (exec (FundPool sender value x p) s) = s.
Proof.
  intros Hne.
  assert (E : exec (FundPool sender value x p) s = Revert "Only manager").
  { simpl. unfold fundPool, onlyManager. simpl.
    destruct (Z.eqb_spec sender (manager s)); [contradiction | reflexivity]. }
  rewrite E. split; reflexivity.
Qed.

Lemma fundPool_only_manager_witness :
  anEmployee <> manager bonus_requested /\
  exec (FundPool anEmployee 5 5 true) bonus_requested = Revert "Only manager" /\
  state_after bonus_requested (exec (FundPool anEmployee 5 5 true) bonus_requested)
    = bonus_requested.
Proof.
  assert (H : anEmployee <> manager bonus_requested) by (vm_compute; discriminate).
  split; [exact H | exact (fundPool_only_manager anEmployee 5 5 true bonus_requested H)].
Defined.

(** C3: once a bonus-settlement callback has succeeded, its request is no
    longer in the registry and one payment has been made; presenting the same
    request id again reverts, with "Invalid employee" when the callback is the
    same, and so pays nothing and changes nothing; and it still reverts after
    any further calls. *)
Theorem callbackPayBonus_replay (id c : Z) (p : bool) (rcv : Receiver)
    (s s' : State) :
  reachable s ->
  exec (CallbackPayBonus id c p rcv) s = Ok s' ->
  requestToEmployee s' id = address0 /\
  transfers s' = (requestToEmployee s id, c) :: transfers s /\
  (forall rcv',
     exec (CallbackPayBonus id c p rcv') s' = Revert "Invalid employee" /\
     state_after s' (exec (CallbackPayBonus id c p rcv') s') = s') /\
  (forall cs c' p' rcv',
     exists reason,
       exec (CallbackPayBonus id c' p' rcv') (run cs s') = Revert reason).
Proof.
  intros HR H. apply reachable_Inv in HR.
  destruct (exec_step _ _ _ HR H) as [HI' St]. simpl in H.
  apply callbackPayBonus_Ok in H as (H0 & e & mid & mid' & Hd & Hb & Hr & ->).
  apply payBonus_debit_Ok in Hd as (Hs & He & Hne & _ & Hc & Hc64 & Hm).
  simpl in He. subst e.
  apply receive_locked in Hr as [F _]; [| subst mid; simpl; lia].
  assert (Hreg : requestToEmployee
                   (set_status 0 (payBonus_record id (requestToEmployee s id) c mid')) id
                 = address0) by (simpl; apply fn_lookup_insert).
  assert (Hlt : id < counterRequest s).
  { destruct (checkSignatures_Ok _ _ _ _ _ Hs) as [Hh _]. simpl in Hh.
    destruct (Z.lt_ge_cases id (counterRequest s)) as [Hlt|Hge]; [assumption|].
    rewrite (inv_fresh _ HR id Hge) in Hh. discriminate. }
  assert (Hsig : forall t, requestedHandles t = requestedHandles mid' ->
                   checkSignatures id c p t = Ok tt).
  { intros t Et. rewrite <- Hs. apply checkSignatures_ext. rewrite Et.
    rewrite (fr_handles _ _ F); subst mid; [reflexivity | assumption]. }
  split; [exact Hreg|]. split.
  { simpl. rewrite (fr_transfers _ _ F). subst mid. reflexivity. }
  assert (Hrev : forall rcv',
            exec (CallbackPayBonus id c p rcv')
              (set_status 0 (payBonus_record id (requestToEmployee s id) c mid'))
            = Revert "Invalid employee").
  { intros rcv'. simpl. unfold callbackPayBonus, nonReentrant. simpl.
    unfold payBonus_debit. rewrite Hsig by reflexivity. simpl.
    rewrite fn_lookup_insert. reflexivity. }
  split.
  - intros rcv'. rewrite Hrev. split; reflexivity.
  - intros cs c' p' rcv'. apply callbackPayBonus_unregistered.
    apply closed_stays; [assumption | | exact Hreg].
    pose proof (st_counter _ _ St). lia.
Qed.

Lemma callbackPayBonus_replay_witness :
  exec (CallbackPayBonus 1 64000 true Accept) bonus_paid = Revert "Invalid employee".
Proof.
  assert (HR : reachable bonus_requested)
    by (apply reachable_run, reach_deploy).
  assert (H : exec (CallbackPayBonus 1 64000 true Accept) bonus_requested
              = Ok bonus_paid) by (vm_compute; reflexivity).
  exact (proj1 (proj1 (proj2 (proj2
    (callbackPayBonus_replay 1 64000 true Accept bonus_requested bonus_paid HR H)))
    Accept)).
Defined.

(** C8: a remainder withdrawal on a pool whose cleartext balance is 0
    reverts before any decryption request is opened.  A remainder callback
    that passes the signature check and presents the id of the pool slot
    reverts with "Pool mismatch" when the decrypted value exceeds the
    cleartext balance and with "Nothing to withdraw" when it is 0; otherwise
    it zeroes the cleartext and the encrypted balance and clears the slot,
    then transfers the whole former cleartext balance to the manager. *)
Theorem withdrawRemaining_settlement :
  (forall sender s,
     actualPool s = 0 ->
     exec (WithdrawRemaining sender) s =
       Revert (if sender =? manager s then "No remaining funds" else "Only manager") /\
     counterRequest (state_after s (exec (WithdrawRemaining sender) s))
       = counterRequest s) /\
  (forall rcv id c p s,
     _status s = 0 ->
     checkSignatures id c p s = Ok tt ->
     id = decryptionRequestIdPool s ->
     0 <= c < uint64_modulus ->
     (actualPool s < c ->
      exec (CallbackWithdrawRemaining id c p rcv) s = Revert "Pool mismatch") /\
     (c <= actualPool s -> c = 0 ->
      exec (CallbackWithdrawRemaining id c p rcv) s = Revert "Nothing to withdraw") /\
     (0 < c <= actualPool s ->
      exists mid,
        withdrawRemaining_reset id c p (set_status 1 s) = Ok (actualPool s, mid) /\
        actualPool mid = 0 /\
        encryptedPool mid = FHE.asEuint64 0 /\
        FHE.decrypt (encryptedPool mid) = 0 /\
        decryptionRequestIdPool mid = 0 /\
        exec (CallbackWithdrawRemaining id c p rcv) s =
          match call_value (receive rcv) (manager s) (actualPool s) mid with
          | Some s' =>
              Ok (set_status 0
                    (emit (RemainingWithdrawn (manager s') (uint64 (actualPool s))) s'))
          | None => Revert "Failed to send ETH"
          end /\
        (forall s', exec (CallbackWithdrawRemaining id c p rcv) s = Ok s' ->
           transfers s' = (manager s, actualPool s) :: transfers s) /\
        (rcv = Accept -> actualPool s <= balance s ->
         exists s', exec (CallbackWithdrawRemaining id c p rcv) s = Ok s' /\
           actualPool s' = 0 /\ encryptedPool s' = FHE.asEuint64 0 /\
           balance s' = balance s - actualPool s))).
Proof.
  split.
  - intros sender s H0.
    assert (E : exec (WithdrawRemaining sender) s =
                Revert (if sender =? manager s
                        then "No remaining funds" else "Only manager")).
    { simpl. unfold withdrawRemaining, onlyManager.
      destruct (sender =? manager s); simpl; [|reflexivity].
      rewrite H0. reflexivity. }
    rewrite E. split; reflexivity.
  - intros rcv id c p s Hst Hsig Hid Hc.
    assert (Hsig1 : checkSignatures id c p (set_status 1 s) = Ok tt)
      by (rewrite <- Hsig; apply checkSignatures_ext; reflexivity).
    assert (Hdec : abi_decode_uint64 c = Ok c).
    { unfold abi_decode_uint64.
      destruct (Z.leb_spec 0 c); [|lia].
      destruct (Z.ltb_spec c uint64_modulus); [reflexivity | lia]. }
    split; [|split].
    + intros Hgt. simpl. unfold callbackWithdrawRemaining, nonReentrant.
      rewrite Hst. simpl. unfold withdrawRemaining_reset.
      rewrite Hsig1. simpl. rewrite Hid, Z.eqb_refl. simpl.
      rewrite Hdec. simpl.
      destruct (Z.leb_spec c (actualPool s)); [lia | reflexivity].
    + intros Hle H0. simpl. unfold callbackWithdrawRemaining, nonReentrant.
      rewrite Hst. simpl. unfold withdrawRemaining_reset.
      rewrite Hsig1. simpl. rewrite Hid, Z.eqb_refl. simpl.
      rewrite Hdec. simpl.
      destruct (Z.leb_spec c (actualPool s)); [|lia]. simpl.
      subst c. reflexivity.
    + intros Hpos.
      set (mid := set_decryptionRequestIdPool 0
                    (set_encryptedPool (FHE.asEuint64 0)
                       (set_actualPool 0 (set_status 1 s)))).
      assert (Hreset : withdrawRemaining_reset id c p (set_status 1 s)
                       = Ok (actualPool s, mid)).
      { unfold withdrawRemaining_reset. rewrite Hsig1. simpl.
        rewrite Hid, Z.eqb_refl. simpl. rewrite Hdec. simpl.
        destruct (Z.leb_spec c (actualPool s)); [|lia]. simpl.
        destruct (Z.ltb_spec 0 c); [|lia]. reflexivity. }
      assert (Hexec : exec (CallbackWithdrawRemaining id c p rcv) s =
          match call_value (receive rcv) (manager s) (actualPool s) mid with
          | Some s' =>
              Ok (set_status 0
                    (emit (RemainingWithdrawn (manager s') (uint64 (actualPool s))) s'))
          | None => Revert "Failed to send ETH"
          end).
      { simpl. unfold callbackWithdrawRemaining, nonReentrant.
        rewrite Hst. simpl. rewrite Hreset. simpl.
        destruct (call_value _ _ _ _); reflexivity. }
      exists mid. repeat split; try reflexivity; try exact Hreset; try exact Hexec.
      * intros s' Hok. rewrite Hexec in Hok.
        destruct (call_value _ _ _ _) as [s1|] eqn:Hcv; [|discriminate].
        inversion Hok; subst; clear Hok.
        apply call_value_Some in Hcv as [_ Hr].
        apply receive_locked in Hr as [F _]; [|simpl; lia].
        simpl. rewrite (fr_transfers _ _ F). reflexivity.
      * intros -> Hbal. rewrite Hexec. unfold call_value. simpl.
        destruct (Z.ltb_spec (balance s) (actualPool s)); [lia|].
        eexists. split; [reflexivity|]. simpl. auto.
Qed.

Lemma withdrawRemaining_settlement_witness :
  exists s',
    exec (CallbackWithdrawRemaining 1 1000000 true Accept) remainder_requested = Ok s' /\
    actualPool s' = 0 /\ encryptedPool s' = FHE.asEuint64 0 /\
    balance s' = balance remainder_requested - actualPool remainder_requested.
Proof.
  assert (Hst : _status remainder_requested = 0) by reflexivity.
  assert (Hsig : checkSignatures 1 1000000 true remainder_requested = Ok tt)
    by reflexivity.
  assert (Hid : 1 = decryptionRequestIdPool remainder_requested) by reflexivity.
  assert (Hc : 0 <= 1000000 < uint64_modulus) by (vm_compute; split; congruence).
  assert (Hpos : 0 < 1000000 <= actualPool remainder_requested)
    by (vm_compute; split; congruence).
  assert (Hbal : actualPool remainder_requested <= balance remainder_requested)
    by (vm_compute; congruence).
  destruct (proj2 (proj2 (proj2 withdrawRemaining_settlement Accept 1 1000000 true
              remainder_requested Hst Hsig Hid Hc)) Hpos)
    as (mid & _ & _ & _ & _ & _ & _ & _ & Hacc).
  exact (Hacc eq_refl Hbal).
Defined.

(** C1: what the funding-verification callback does on a second funding.
    It compares the decrypted amount of the funding with the running
    cleartext total, not with the amount sent with that funding: after a
    verified funding of 5, a funding of 3 with a ciphertext of 3 is answered
    by "Encrypted pool mismatch", and a funding of 3 with a ciphertext of 8
    is accepted, leaving an encrypted balance of 13 next to a cleartext
    balance of 8. *)
Theorem callbackVerifyPool_second_funding :
  (decryptionRequestIdPool second_funding_honest = 1 /\
   checkSignatures 1 3 true second_funding_honest = Ok tt /\
   exec (CallbackVerifyPool 1 3 true) second_funding_honest
     = Revert "Encrypted pool mismatch") /\
  (decryptionRequestIdPool second_funding_inflated = 1 /\
   checkSignatures 1 8 true second_funding_inflated = Ok tt /\
   exists s',
     exec (CallbackVerifyPool 1 8 true) second_funding_inflated = Ok s' /\
     actualPool s' = 8 /\
     FHE.decrypt (encryptedPool s') = 13).
Proof.
  split.
  - conjs; vm_compute; reflexivity.
  - split; [vm_compute; reflexivity|]. split; [vm_compute; reflexivity|].
    exists (state_after second_funding_inflated
              (exec (CallbackVerifyPool 1 8 true) second_funding_inflated)).
    conjs; vm_compute; reflexivity.
Qed.

(** The test of the funding-verification callback, in general: with a
    genuine answer for the id in the pool slot, it succeeds exactly when the
    decrypted amount is the current cleartext balance. *)
Lemma callbackVerifyPool_accepts id c p s :
  checkSignatures id c p s = Ok tt ->
  id = decryptionRequestIdPool s ->
  0 <= c < uint64_modulus ->
  exec (CallbackVerifyPool id c p) s =
    if c =? actualPool s then Ok (set_decryptionRequestIdPool 0 s)
    else Revert "Encrypted pool mismatch".
Proof.
  intros Hs Hid Hc. simpl. unfold callbackVerifyPool. rewrite Hs. simpl.
  rewrite Hid, Z.eqb_refl. simpl. unfold abi_decode_uint64.
  destruct (Z.leb_spec 0 c); [|lia].
  destruct (Z.ltb_spec c uint64_modulus); [|lia]. simpl.
  destruct (c =? actualPool s); reflexivity.
Qed.

(** C7: what the commitment does on a pool that was never funded.  The
    encrypted pool is initialised at deployment, so the "Pool not funded"
    test passes on the freshly deployed contract and the commitment
    succeeds. *)
Theorem commitPerformance_before_funding :
  actualPool (constructor theManager) = 0 /\
  events (constructor theManager) = [] /\
  FHE.isInitialized (encryptedPool (constructor theManager)) = true /\
  exists s',
    exec (CommitPerformance anEmployee 80 true Role.Mid) (constructor theManager)
      = Ok s' /\
    hasCommitted (employees s' anEmployee) = true /\
    employeeList s' = [anEmployee].
Proof.
  conjs; try (vm_compute; reflexivity).
  exists (state_after (constructor theManager)
            (exec (CommitPerformance anEmployee 80 true Role.Mid)
               (constructor theManager))).
  conjs; vm_compute; reflexivity.
Qed.

(** The other guards of the commitment, in the order of the code. *)
Lemma commitPerformance_guards sender x p r s :
  (r = Role.None ->
   exec (CommitPerformance sender x p r) s = Revert "Invalid role") /\
  (r <> Role.None -> hasWithdrawn (employees s sender) = true ->
   exec (CommitPerformance sender x p r) s = Revert "Already withdrawn") /\
  (r <> Role.None -> hasWithdrawn (employees s sender) = false ->
   FHE.isInitialized (encryptedPool s) = true ->
   hasCommitted (employees s sender) = true ->
   exec (CommitPerformance sender x p r) s = Revert "Already committed performance").
Proof.
  simpl. unfold commitPerformance. repeat split.
  - intros ->. reflexivity.
  - intros Hr Hw. destruct r; try contradiction; simpl; rewrite Hw; reflexivity.
  - intros Hr Hw Hi Hc.
    destruct r; try contradiction; simpl; rewrite Hw, Hi, Hc; reflexivity.
Qed.

(** The "Pool not funded" test passes on every reachable state. *)
Lemma pool_always_initialized (s : State) :
  reachable s -> FHE.isInitialized (encryptedPool s) = true.
Proof. intros H. apply (inv_pool _ (reachable_Inv _ H)). Qed.

Lemma uint64_small (x : Z) : 0 <= x < uint64_modulus -> uint64 x = x.
Proof. intros H. unfold uint64. apply Z.mod_small. assumption. Qed.

(** The bonus on ciphertexts, by the values encrypted. *)
Lemma encryptedBonus_decrypt (perf pool : euint64) (pct : Z) :
  encryptedBonus perf pct pool =
    Some (uint64 (uint64 (FHE.decrypt perf * uint64 pct) / 100 * FHE.decrypt pool)
          / 10000).
Proof. reflexivity. Qed.

Lemma encryptedBonus_exact (perf pool : euint64) (pct : Z) :
  0 <= pct < uint64_modulus ->
  0 <= FHE.decrypt perf * pct < uint64_modulus ->
  0 <= FHE.decrypt perf * pct / 100 * FHE.decrypt pool < uint64_modulus ->
  encryptedBonus perf pct pool =
    Some (spec_bonus (FHE.decrypt perf) pct (FHE.decrypt pool)).
Proof.
  intros Hp H1 H2. rewrite encryptedBonus_decrypt. unfold spec_bonus.
  rewrite (uint64_small pct) by assumption.
  rewrite (uint64_small (FHE.decrypt perf * pct)) by assumption.
  rewrite uint64_small by assumption. reflexivity.
Qed.

(** C2: what the withdrawal computes on a pool of 0.01 ETH (10^16 wei) for
    a participant with score 100, within the documented 0-100, and tier Lead
    (2000 basis points, the documented 20%).  The formula
    floor(floor(score * basisPoints / 100) * poolBalance / 10000) gives
    2 * 10^15, which fits in 64 bits, but the product 2000 * 10^16 that the
    contract forms on the way does not, [FHE.mul] wraps, and the request
    carries 155325592629044. *)
Theorem withdrawBonus_overflow :
  exec (WithdrawBonus anEmployee)
    (run [FundPool theManager (10 ^ 16) (10 ^ 16) true;
          CommitPerformance anEmployee 100 true Role.Lead]
       (constructor theManager)) = Ok large_pool_requested /\
  FHE.decrypt (performance (employees large_pool_requested anEmployee)) = 100 /\
  rolePercentage large_pool_requested
    (role (employees large_pool_requested anEmployee)) = 2000 /\
  FHE.decrypt (encryptedPool large_pool_requested) = 10 ^ 16 /\
  requestedHandles large_pool_requested 1 = Some 155325592629044 /\
  spec_bonus 100 2000 (10 ^ 16) = 2000000000000000 /\
  spec_bonus 100 2000 (10 ^ 16) < uint64_modulus /\
  uint64_modulus <= 100 * 2000 / 100 * 10 ^ 16 /\
  requestedHandles large_pool_requested 1 <>
    Some (spec_bonus
            (FHE.decrypt (performance (employees large_pool_requested anEmployee)))
            (rolePercentage large_pool_requested
               (role (employees large_pool_requested anEmployee)))
            (FHE.decrypt (encryptedPool large_pool_requested))).
Proof.
  split; [vm_compute; reflexivity|].
  split; [vm_compute; reflexivity|].
  split; [vm_compute; reflexivity|].
  split; [vm_compute; reflexivity|].
  split; [vm_compute; reflexivity|].
  split; [vm_compute; reflexivity|].
  split; [vm_compute; reflexivity|].
  split; [vm_compute; congruence|].
  vm_compute. congruence.
Qed.

(** What the withdrawal computes in general, the part of the formula the
    code keeps: the bonus whose decryption the withdrawal requests is
    computed on 64-bit ciphertexts: floor(((score * basisPoints) mod 2^64)
    / 100) times the encrypted pool balance, again mod 2^64, then floor
    divided by 10000, the two divisions in that order.  It equals
    floor(floor(score * basisPoints / 100) * poolBalance / 10000) whenever
    both products stay below 2^64.  For a pool funded with 1000000 and a
    participant with score 80 and tier Mid (800 basis points) the request
    carries 64000, and its settlement pays 64000 and leaves a cleartext
    balance of 936000. *)
Theorem withdrawBonus_formula :
  (forall sender s s',
     exec (WithdrawBonus sender) s = Ok s' ->
     let score := FHE.decrypt (performance (employees s sender)) in
     let pct := rolePercentage s (role (employees s sender)) in
     let pool := FHE.decrypt (encryptedPool s) in
     hasCommitted (employees s sender) = true /\
     requestToEmployee s' (counterRequest s) = sender /\
     requestedHandles s' (counterRequest s) =
       Some (uint64 (uint64 (score * uint64 pct) / 100 * pool) / 10000) /\
     (0 <= pct < uint64_modulus ->
      0 <= score * pct < uint64_modulus ->
      0 <= score * pct / 100 * pool < uint64_modulus ->
      requestedHandles s' (counterRequest s) = Some (spec_bonus score pct pool))) /\
  (requestedHandles bonus_requested 1 = Some 64000 /\
   spec_bonus 80 800 1000000 = 64000 /\
   actualPool bonus_requested = 1000000 /\
   exec (CallbackPayBonus 1 64000 true Accept) bonus_requested = Ok bonus_paid /\
   transfers bonus_paid = [(anEmployee, 64000)] /\
   actualPool bonus_paid = 936000 /\
   FHE.decrypt (encryptedPool bonus_paid) = 936000).
Proof.
  split.
  - intros sender s s' H score pct pool. simpl in H.
    unfold withdrawBonus in H. peel H. inversion H; subst; clear H.
    assert (Hreq : requestedHandles (openBonusRequest sender (markWithdrawn sender s))
                     (counterRequest s)
                   = encryptedBonus (performance (employees s sender)) pct
                       (encryptedPool s)).
    { unfold openBonusRequest, markWithdrawn, requestDecryption. simpl.
      rewrite !fn_lookup_insert. simpl. reflexivity. }
    split; [assumption|]. split.
    { unfold openBonusRequest, markWithdrawn, requestDecryption. simpl.
      apply fn_lookup_insert. }
    split.
    + rewrite Hreq. apply encryptedBonus_decrypt.
    + intros Hp H1 H2. rewrite Hreq. apply encryptedBonus_exact; assumption.
  - conjs; vm_compute; reflexivity.
Qed.

Lemma withdrawBonus_formula_witness :
  requestedHandles bonus_requested 1 = Some (spec_bonus 80 800 1000000).
Proof.
  pose (s := run [FundPool theManager 1000000 1000000 true;
                  CallbackVerifyPool 0 1000000 true;
                  CommitPerformance anEmployee 80 true Role.Mid]
               (constructor theManager)).
  assert (H : exec (WithdrawBonus anEmployee) s = Ok bonus_requested)
    by (vm_compute; reflexivity).
  assert (Hp : 0 <= 800 < uint64_modulus) by (vm_compute; split; congruence).
  assert (H1 : 0 <= 80 * 800 < uint64_modulus) by (vm_compute; split; congruence).
  assert (H2 : 0 <= 80 * 800 / 100 * 1000000 < uint64_modulus)
    by (vm_compute; split; congruence).
  exact (proj2 (proj2 (proj2
           (proj1 withdrawBonus_formula anEmployee s bonus_requested H))) Hp H1 H2).
Defined.

Lemma rolePercentage_deployed (d : address) (r : Role.t) :
  rolePercentage (constructor d) r =
    match r with
    | Role.None => 0 | Role.Intern => 200 | Role.Junior => 500
    | Role.Mid => 800 | Role.Senior => 1200 | Role.Lead => 2000
    end.
Proof. destruct r; reflexivity. Qed.

Lemma bonus_exact (score : Z) (r : Role.t) (pool : Z) :
  0 <= score -> 0 <= pool ->
  score * rolePercentage (constructor address0) r < uint64_modulus ->
  score * rolePercentage (constructor address0) r / 100 * pool < uint64_modulus ->
  bonus score r pool = spec_bonus score (rolePercentage (constructor address0) r) pool.
Proof.
  intros Hs Hp H1 H2. unfold bonus.
  assert (Hpct : 0 <= rolePercentage (constructor address0) r < uint64_modulus)
    by (rewrite rolePercentage_deployed; destruct r; vm_compute; split; congruence).
  remember (rolePercentage (constructor address0) r) as pct eqn:Epct.
  assert (H0 : 0 <= score * pct) by (apply Z.mul_nonneg_nonneg; lia).
  assert (H3 : 0 <= score * pct / 100) by (apply Z.div_pos; lia).
  assert (H4 : 0 <= score * pct / 100 * pool) by (apply Z.mul_nonneg_nonneg; lia).
  rewrite encryptedBonus_exact.
  - reflexivity.
  - assumption.
  - change (0 <= score * pct < uint64_modulus). lia.
  - change (0 <= score * pct / 100 * pool < uint64_modulus). lia.
Qed.

Lemma spec_bonus_mono (s1 s2 p1 p2 pool : Z) :
  0 <= s1 <= s2 -> 0 <= p1 <= p2 -> 0 <= pool ->
  spec_bonus s1 p1 pool <= spec_bonus s2 p2 pool.
Proof.
  intros Hs Hp Hpool. unfold spec_bonus.
  apply Z.div_le_mono; [lia|].
  apply Z.mul_le_mono_nonneg_r; [assumption|].
  apply Z.div_le_mono; [lia|].
  apply Z.mul_le_mono_nonneg; lia.
Qed.

Lemma rolePercentage_rank (t1 t2 : Role.t) :
  Role.rank t1 <= Role.rank t2 ->
  0 <= rolePercentage (constructor address0) t1
    <= rolePercentage (constructor address0) t2.
Proof.
  rewrite !rolePercentage_deployed.
  destruct t1, t2; simpl; intros H; lia.
Qed.

(** C9: what the contract computes on a pool of 0.01 ETH (10^16 wei).  With
    tier Lead, score 92 is granted 1840000000000000 and score 100 only
    155325592629044; with score 100, tier Senior is granted 1200000000000000
    and tier Lead only 155325592629044.  The formula over the integers is
    monotonic there (1840000000000000 and 1200000000000000 against
    2 * 10^15, all within 64 bits): the product 2000 * 10^16 wraps in
    [FHE.mul]. *)
Theorem bonus_overflow_breaks_monotonicity :
  (large_pool_request 92 Role.Lead = Some 1840000000000000 /\
   large_pool_request 100 Role.Lead = Some 155325592629044 /\
   large_pool_request 100 Role.Senior = Some 1200000000000000) /\
  (92 <= 100 /\
   bonus 92 Role.Lead (10 ^ 16) > bonus 100 Role.Lead (10 ^ 16)) /\
  (Role.rank Role.Senior < Role.rank Role.Lead /\
   bonus 100 Role.Senior (10 ^ 16) > bonus 100 Role.Lead (10 ^ 16)) /\
  (spec_bonus 92 2000 (10 ^ 16) <= spec_bonus 100 2000 (10 ^ 16) /\
   spec_bonus 100 1200 (10 ^ 16) <= spec_bonus 100 2000 (10 ^ 16) /\
   spec_bonus 100 2000 (10 ^ 16) < uint64_modulus).
Proof.
  split; [conjs; vm_compute; reflexivity|].
  split; [conjs; vm_compute; congruence|].
  split; [conjs; vm_compute; congruence|].
  conjs; vm_compute; congruence.
Qed.

(** Within the 64-bit range the contract keeps the monotonicity of the
    formula: for a fixed pool balance the bonus the contract computes
    is monotonic in the score and in the tier rank (basis points 200, 500,
    800, 1200, 2000 for Intern through Lead) as long as the two products of
    the larger operand stay below 2^64: then a score s1 <= s2 with the same
    tier, or a tier ranked below another with the same score, never gets a
    strictly greater bonus. *)
Theorem bonus_monotonic :
  (forall r pool s1 s2,
     0 <= s1 <= s2 -> 0 <= pool ->
     s2 * rolePercentage (constructor address0) r < uint64_modulus ->
     s2 * rolePercentage (constructor address0) r / 100 * pool < uint64_modulus ->
     bonus s1 r pool <= bonus s2 r pool) /\
  (forall t1 t2 score pool,
     Role.rank t1 <= Role.rank t2 -> 0 <= score -> 0 <= pool ->
     score * rolePercentage (constructor address0) t2 < uint64_modulus ->
     score * rolePercentage (constructor address0) t2 / 100 * pool < uint64_modulus ->
     bonus score t1 pool <= bonus score t2 pool).
Proof.
  split.
  - intros r pool s1 s2 Hs Hpool H1 H2.
    pose proof (rolePercentage_rank r r (Z.le_refl _)) as [Hp _].
    assert (Hm : s1 * rolePercentage (constructor address0) r
                 <= s2 * rolePercentage (constructor address0) r)
      by (apply Z.mul_le_mono_nonneg_r; lia).
    assert (Hd : s1 * rolePercentage (constructor address0) r / 100 * pool
                 <= s2 * rolePercentage (constructor address0) r / 100 * pool).
    { apply Z.mul_le_mono_nonneg_r; [assumption|].
      apply Z.div_le_mono; lia. }
    rewrite !bonus_exact by lia.
    apply spec_bonus_mono; lia.
  - intros t1 t2 score pool Hr Hs Hpool H1 H2.
    pose proof (rolePercentage_rank t1 t2 Hr) as Hp.
    assert (Hm : score * rolePercentage (constructor address0) t1
                 <= score * rolePercentage (constructor address0) t2)
      by (apply Z.mul_le_mono_nonneg_l; lia).
    assert (Hd : score * rolePercentage (constructor address0) t1 / 100 * pool
                 <= score * rolePercentage (constructor address0) t2 / 100 * pool).
    { apply Z.mul_le_mono_nonneg_r; [assumption|].
      apply Z.div_le_mono; lia. }
    rewrite !bonus_exact by lia.
    apply spec_bonus_mono; lia.
Qed.

Lemma bonus_monotonic_witness :
  bonus 80 Role.Mid 1000000 <= bonus 90 Role.Mid 1000000 /\
  bonus 80 Role.Junior 1000000 <= bonus 80 Role.Mid 1000000.
Proof.
  split.
  - apply (proj1 bonus_monotonic Role.Mid 1000000 80 90);
      vm_compute; try split; congruence.
  - apply (proj2 bonus_monotonic Role.Junior Role.Mid 80 1000000);
      vm_compute; congruence.
Defined.

(** A recorded bonus changes only in the bonus callback of a request of
    that employee. *)
Lemma exec_bonus_change c s s' a :
  Inv s -> exec c s = Ok s' ->
  decryptedBonus (employees s' a) <> decryptedBonus (employees s a) ->
  exists id v p rcv,
    c = CallbackPayBonus id v p rcv /\
    requestToEmployee s id = a /\
    decryptedBonus (employees s' a) = v.
Proof.
  intros HI H Hne. destruct c; simpl in H.
  - apply fundPool_frame in H as [_ Q]. destruct (Q HI) as [_ B]. congruence.
  - apply callbackVerifyPool_frame in H as [_ Q]. destruct (Q HI) as [_ B]. congruence.
  - apply commitPerformance_frame in H as [_ Q]. destruct (Q HI) as [_ B]. congruence.
  - apply withdrawBonus_frame in H as [_ Q]. destruct (Q HI) as [_ B]. congruence.
  - apply callbackPayBonus_Ok in H as (H0 & e & mid & mid' & Hd & Hb & Hr & ->).
    apply payBonus_debit_Ok in Hd as (_ & He & _ & _ & _ & _ & Hm).
    simpl in He.
    assert (HIm : Inv (during_transfer e cleartexts mid))
      by (subst mid; revert HI; apply Inv_ext; reflexivity).
    apply receive_locked in Hr as [_ Q]; [| subst mid; simpl; lia].
    destruct (Q HIm) as [_ B]. subst mid. simpl in *.
    exists requestId, cleartexts, proof, rcv.
    insert_cases. subst. auto.
  - apply withdrawRemaining_frame in H as [_ Q]. destruct (Q HI) as [_ B]. congruence.
  - apply callbackWithdrawRemaining_Ok in H as (H0 & mid & mid' & Hd & Hb & Hr & ->).
    apply withdrawRemaining_reset_Ok in Hd as (_ & _ & _ & _ & _ & Hm).
    assert (HIm : Inv (during_transfer (manager s) (actualPool s) mid))
      by (subst mid; revert HI; apply Inv_ext; reflexivity).
    apply receive_locked in Hr as [_ Q]; [| subst mid; simpl; lia].
    destruct (Q HIm) as [_ B]. subst mid. simpl in *.
    rewrite B in Hne. congruence.
  - inversion H; subst; clear H. simpl in Hne. congruence.
Qed.

(** The bonus callback records 64000 for an employee whose withdrawn flag
    was set by an earlier call. *)
Lemma C4_counterexample :
  reachable bonus_requested /\
  exec (CallbackPayBonus 1 64000 true Accept) bonus_requested = Ok bonus_paid /\
  decryptedBonus (employees bonus_requested anEmployee) = 0 /\
  decryptedBonus (employees bonus_paid anEmployee) = 64000 /\
  hasWithdrawn (employees bonus_requested anEmployee) = true /\
  ~ bonus_written_when_flag_turns.
Proof.
  assert (HR : reachable bonus_requested) by (apply reachable_run, reach_deploy).
  assert (HE : exec (CallbackPayBonus 1 64000 true Accept) bonus_requested
               = Ok bonus_paid) by (vm_compute; reflexivity).
  split; [exact HR|]. split; [exact HE|].
  split; [vm_compute; reflexivity|]. split; [vm_compute; reflexivity|].
  split; [vm_compute; reflexivity|].
  intros Hclaim.
  destruct (Hclaim _ _ _ anEmployee HR HE) as [Hf _].
  - vm_compute. congruence.
  - vm_compute in Hf. congruence.
Qed.

(** C4, as the contract has it: in every successful call on a reachable state, a withdrawn
    flag that is set stays set and a committed flag that is set stays set;
    while the withdrawn flag of a participant is set, a commitment and a bonus
    withdrawal by that participant revert; the bonus withdrawal of a
    participant sets the flag and only then opens the decryption request; a
    commitment succeeds only when the committed flag is unset and sets it;
    and the recorded bonus of a participant changes only in the bonus
    callback of a request of that participant, whose withdrawn flag is by
    then already set. *)
Theorem participant_flags (c : Call) (s s' : State) (a : address) :
  reachable s ->
  exec c s = Ok s' ->
  (hasWithdrawn (employees s a) = true -> hasWithdrawn (employees s' a) = true) /\
  (hasCommitted (employees s a) = true -> hasCommitted (employees s' a) = true) /\
  (hasWithdrawn (employees s a) = true ->
   (forall x p r,
      exec (CommitPerformance a x p r) s =
        Revert (if Role.eqb r Role.None then "Invalid role" else "Already withdrawn")) /\
   exec (WithdrawBonus a) s =
     Revert (if hasCommitted (employees s a)
             then "Already withdrawn" else "No performance committed")) /\
  (c = WithdrawBonus a ->
   hasWithdrawn (employees s a) = false /\
   hasWithdrawn (employees (markWithdrawn a s) a) = true /\
   counterRequest (markWithdrawn a s) = counterRequest s /\
   requestedHandles (markWithdrawn a s) = requestedHandles s /\
   s' = openBonusRequest a (markWithdrawn a s) /\
   counterRequest s' = counterRequest s + 1) /\
  (forall x p r,
     c = CommitPerformance a x p r ->
     hasCommitted (employees s a) = false /\
     hasCommitted (employees s' a) = true) /\
  (decryptedBonus (employees s' a) <> decryptedBonus (employees s a) ->
   hasWithdrawn (employees s a) = true /\
   exists id v p rcv,
     c = CallbackPayBonus id v p rcv /\
     requestToEmployee s id = a /\
     decryptedBonus (employees s' a) = v).
Proof.
  intros HR H. apply reachable_Inv in HR.
  destruct (exec_step c s s' HR H) as [_ St].
  split; [apply (st_withdrawn _ _ St)|].
  split; [apply (st_committed _ _ St)|].
  split.
  { intros Hw. split.
    - intros x p r. simpl. unfold commitPerformance.
      destruct (Role.eqb r Role.None); simpl; [reflexivity|].
      rewrite Hw. reflexivity.
    - simpl. unfold withdrawBonus.
      destruct (hasCommitted (employees s a)); simpl; [|reflexivity].
      rewrite Hw. reflexivity. }
  split.
  { intros ->. simpl in H. unfold withdrawBonus in H. peel H.
    inversion H; subst; clear H. boolp.
    conjs; try reflexivity; try assumption.
    unfold markWithdrawn. simpl. rewrite fn_lookup_insert. reflexivity. }
  split.
  { intros x p r ->. simpl in H. unfold commitPerformance in H. peel H.
    inversion H; subst; clear H. boolp. split; [assumption|].
    simpl. rewrite fn_lookup_insert. reflexivity. }
  intros Hne. split; [apply (st_bonus _ _ St); assumption|].
  apply exec_bonus_change; assumption.
Qed.

Lemma participant_flags_witness :
  hasWithdrawn (employees bonus_requested anEmployee) = true /\
  decryptedBonus (employees bonus_paid anEmployee) = 64000.
Proof.
  assert (HR : reachable bonus_requested) by (apply reachable_run, reach_deploy).
  assert (HE : exec (CallbackPayBonus 1 64000 true Accept) bonus_requested
               = Ok bonus_paid) by (vm_compute; reflexivity).
  assert (Hne : decryptedBonus (employees bonus_paid anEmployee)
                <> decryptedBonus (employees bonus_requested anEmployee))
    by (vm_compute; congruence).
  destruct (participant_flags _ _ _ anEmployee HR HE)
    as (_ & _ & _ & _ & _ & Hb).
  destruct (Hb Hne) as [Hw _].
  split; [exact Hw | vm_compute; reflexivity].
Defined.





(** A funding opened while a remainder request is pending takes its place
    in the pool slot, and the remainder callback, accepted before, reverts
    with "Invalid request ID"; the same with the two purposes exchanged. *)
Lemma C6_counterexample :
  (decryptionRequestIdPool remainder_requested = 1 /\
   (exists s', exec (CallbackWithdrawRemaining 1 1000000 true Accept)
                 remainder_requested = Ok s') /\
   decryptionRequestIdPool (run [FundPool theManager 5 5 true] remainder_requested)
     = 2 /\
   exec (CallbackWithdrawRemaining 1 1000000 true Accept)
     (run [FundPool theManager 5 5 true] remainder_requested)
     = Revert "Invalid request ID") /\
  (decryptionRequestIdPool funding_requested = 0 /\
   (exists s', exec (CallbackVerifyPool 0 1000000 true) funding_requested = Ok s') /\
   decryptionRequestIdPool (run [WithdrawRemaining theManager] funding_requested)
     = 1 /\
   exec (CallbackVerifyPool 0 1000000 true)
     (run [WithdrawRemaining theManager] funding_requested)
     = Revert "Invalid request ID").
Proof.
  split; conjs; try (vm_compute; reflexivity).
  - exists (state_after remainder_requested
              (exec (CallbackWithdrawRemaining 1 1000000 true Accept)
                 remainder_requested)).
    vm_compute. reflexivity.
  - exists (state_after funding_requested
              (exec (CallbackVerifyPool 0 1000000 true) funding_requested)).
    vm_compute. reflexivity.
Qed.

(** ** Invariants of the three balances

    The cleartext pool, the encrypted pool and the ETH balance move in four
    ways only: a funding, a plain receipt of ETH, a bonus payment and the
    withdrawal of the remainder.  A property of the three that survives the
    four survives every call, the calls of the recipients included. *)

Section Balances.

Variable Q : Z -> euint64 -> Z -> Prop.
Variable ok : Call -> bool.

Hypothesis Q_fund : forall sender p ap ep bal v x,
  ok (FundPool sender v x p) = true ->
  Q ap ep bal -> 0 < v -> ap + v < uint256_modulus -> 0 <= x < uint64_modulus ->
  Q (ap + v) (FHE.add ep (Some x)) (bal + v).

Hypothesis Q_receive : forall ap ep bal v,
  ok (Receive v) = true -> Q ap ep bal -> Q ap ep (bal + v).

Hypothesis Q_pay : forall ap ep bal c,
  Q ap ep bal -> 0 < c <= ap -> c < uint64_modulus -> c <= bal ->
  Q (ap - c) (FHE.sub ep (FHE.asEuint64 c)) (bal - c).

Hypothesis Q_reset : forall ap ep bal,
  Q ap ep bal -> ap <= bal -> Q 0 (FHE.asEuint64 0) (bal - ap).

Let P (s : State) : Prop := Q (actualPool s) (encryptedPool s) (balance s).

Lemma balances_flat c s s' :
  match c with
  | CallbackPayBonus _ _ _ _ | CallbackWithdrawRemaining _ _ _ _ => False
  | _ => True
  end ->
  ok c = true -> P s -> exec c s = Ok s' -> P s'.
Proof.
  unfold P. intros Hc Hok HP H. destruct c; try contradiction; simpl in H.
  - unfold fundPool in H. peel H. unfold requestDecryption in H. simpl in H.
    inversion H; subst; clear H. boolp. simpl in *.
    eapply Q_fund; eauto; lia.
  - unfold callbackVerifyPool in H. peel H. inversion H; subst. exact HP.
  - unfold commitPerformance in H. peel H. inversion H; subst. exact HP.
  - unfold withdrawBonus in H. peel H. inversion H; subst. exact HP.
  - unfold withdrawRemaining in H. peel H. unfold requestDecryption in H.
    simpl in H. inversion H; subst. exact HP.
  - inversion H; subst. simpl. apply Q_receive with (v := value); assumption.
Qed.

Lemma balances_receive rcv : forall s s',
  _status s <> 0 -> every_reentry ok rcv = true ->
  P s -> receive rcv s = Some s' -> P s'.
Proof.
  induction rcv as [| |c k IH]; simpl; intros s s' Hl Hok HP H.
  - inversion H; subst. assumption.
  - discriminate.
  - apply andb_true_iff in Hok as [Hc Hk].
    destruct (exec c s) as [s1|e] eqn:E; simpl in H; [|eapply IH; eassumption].
    apply (IH s1 s'); try assumption.
    + apply exec_locked in E as [F _]; [|assumption].
      rewrite (fr_status _ _ F). assumption.
    + assert (Hflat : match c with
                      | CallbackPayBonus _ _ _ _
                      | CallbackWithdrawRemaining _ _ _ _ => False
                      | _ => True
                      end).
      { destruct c; try exact I; simpl in E.
        - unfold callbackPayBonus in E.
          rewrite nonReentrant_locked in E by assumption. discriminate.
        - unfold callbackWithdrawRemaining in E.
          rewrite nonReentrant_locked in E by assumption. discriminate. }
      apply (balances_flat c s s1 Hflat); try assumption.
      destruct c; simpl in Hc; try contradiction;
        apply andb_true_iff in Hc as [Hc _]; exact Hc.
Qed.

Lemma balances_exec c s s' :
  every_call ok c = true -> P s -> exec c s = Ok s' -> P s'.
Proof.
  intros Hok HP H.
  assert (Hc : ok c = true)
    by (destruct c; simpl in Hok; apply andb_true_iff in Hok as [Hc _]; exact Hc).
  destruct c; try (refine (balances_flat _ s s' _ Hc HP H); exact I).
  - simpl in Hok. apply andb_true_iff in Hok as [_ Hr]. simpl in H.
    apply callbackPayBonus_Ok in H as (H0 & e & mid & mid' & Hd & Hb & Hr' & ->).
    apply payBonus_debit_Ok in Hd as (_ & _ & _ & _ & Hle & H64 & Hm).
    assert (HP' : P mid').
    { apply (balances_receive rcv (during_transfer e cleartexts mid) mid');
        try assumption.
      - subst mid. simpl. lia.
      - subst mid. unfold P in *. simpl in *.
        apply (Q_pay (actualPool s) (encryptedPool s) (balance s) cleartexts);
          try assumption; lia. }
    exact HP'.
  - simpl in Hok. apply andb_true_iff in Hok as [_ Hr]. simpl in H.
    apply callbackWithdrawRemaining_Ok in H
      as (H0 & mid & mid' & Hd & Hb & Hr' & ->).
    apply withdrawRemaining_reset_Ok in Hd as (_ & _ & _ & _ & _ & Hm).
    assert (HP' : P mid').
    { apply (balances_receive rcv
               (during_transfer (manager s) (actualPool s) mid) mid');
        try assumption.
      - subst mid. simpl. lia.
      - subst mid. unfold P in *. simpl in *.
        apply (Q_reset (actualPool s) (encryptedPool s) (balance s));
          assumption. }
    exact HP'.
Qed.

Lemma balances_run (cs : list Call) : forall s,
  forallb (every_call ok) cs = true -> P s -> P (run cs s).
Proof.
  induction cs as [|c cs IH]; simpl; intros s Hok HP; [assumption|].
  apply andb_true_iff in Hok as [Hc Hcs].
  apply IH; [assumption|].
  destruct (exec c s) as [s1|e] eqn:E; simpl; [|assumption].
  apply (balances_exec c s s1); assumption.
Qed.

End Balances.

(** ** The pool across whole transactions *)

(** X1: as long as every [msg.value] is a uint256, the contract holds at
    least the ETH of its cleartext pool after any sequence of calls from
    deployment, reverted or not, whatever the recipients of its transfers
    call back. *)
Theorem pool_is_solvent (deployer : address) (cs : list Call) :
  forallb (every_call value_is_uint256) cs = true ->
  solvent (run cs (constructor deployer)).
Proof.
  intros Hok.
  apply (balances_run (fun ap _ bal => 0 <= ap <= bal) value_is_uint256);
    try assumption.
  - intros sender p ap ep bal v x _ H Hv _ _. lia.
  - intros ap ep bal v Hok' H. simpl in Hok'. boolp. lia.
  - intros ap ep bal c H Hc _ Hb. lia.
  - intros ap ep bal H Hle. lia.
  - simpl. lia.
Qed.

Lemma pool_is_solvent_witness :
  solvent (run a_round (constructor theManager)).
Proof.
  apply (pool_is_solvent theManager a_round). vm_compute. reflexivity.
Defined.

(** X2: when every funding sends the amount it encrypts, the encrypted pool
    encrypts the cleartext pool modulo 2^64 after any sequence of calls from
    deployment, and exactly so while the cleartext pool is below 2^64. *)
Theorem encrypted_pool_tracks_cleartext_pool (deployer : address)
    (cs : list Call) :
  forallb (every_call funds_what_it_encrypts) cs = true ->
  pools_agree (run cs (constructor deployer)) /\
  (actualPool (run cs (constructor deployer)) < uint64_modulus ->
   FHE.decrypt (encryptedPool (run cs (constructor deployer)))
     = actualPool (run cs (constructor deployer))).
Proof.
  intros Hok.
  assert (HP : pools_agree (run cs (constructor deployer))).
  { apply (balances_run
             (fun ap ep _ => 0 <= ap /\ FHE.decrypt ep = uint64 ap)
             funds_what_it_encrypts); try assumption.
    - intros sender p ap ep bal v x Hf [H0 H] Hv _ Hx. simpl in Hf. boolp.
      subst x. split; [lia|]. simpl. rewrite H. unfold uint64.
      apply Z.add_mod_idemp_l. unfold uint64_modulus. lia.
    - intros ap ep bal v _ H. exact H.
    - intros ap ep bal c [H0 H] Hc H64 _. split; [lia|]. simpl. rewrite H.
      unfold uint64. rewrite Zminus_mod_idemp_l, Zminus_mod_idemp_r.
      reflexivity.
    - intros ap ep bal _ _. split; [lia | reflexivity].
    - split; [simpl; lia | reflexivity]. }
  split; [exact HP|].
  intros Hlt. destruct HP as [H0 H]. rewrite H. apply uint64_small. lia.
Qed.

Lemma encrypted_pool_tracks_cleartext_pool_witness :
  pools_agree (run a_round (constructor theManager)).
Proof.
  apply (encrypted_pool_tracks_cleartext_pool theManager a_round).
  vm_compute. reflexivity.
Defined.

(** ** What the contract keeps of its employees and requests *)

Lemma Keep_refl (s : State) : Keep s s.
Proof.
  constructor.
  - intros a H. auto.
  - exists []. symmetry. apply app_nil_r.
Qed.

Lemma Keep_trans (s1 s2 s3 : State) : Keep s1 s2 -> Keep s2 s3 -> Keep s1 s3.
Proof.
  intros [E1 [l1 L1]] [E2 [l2 L2]]. constructor.
  - intros a H. destruct (E1 a H) as (C & R & S).
    destruct (E2 a C) as (C' & R' & S'). repeat split; congruence.
  - exists (l1 ++ l2)%list. rewrite L2, L1. symmetry. apply app_assoc.
Qed.

Lemma locked_not_pays c s s' :
  _status s <> 0 -> exec c s = Ok s' -> pays c = false.
Proof.
  intros Hl H. destruct c; try reflexivity; simpl in H.
  - unfold callbackPayBonus in H.
    rewrite nonReentrant_locked in H by assumption. discriminate.
  - unfold callbackWithdrawRemaining in H.
    rewrite nonReentrant_locked in H by assumption. discriminate.
Qed.

(** Name the state a call without transfer ends in. *)
Ltac flat_call c H :=
  destruct c; try discriminate; simpl in H;
  [ unfold fundPool in H; peel H; unfold requestDecryption in H; simpl in H
  | unfold callbackVerifyPool in H; peel H
  | unfold commitPerformance in H; peel H
  | unfold withdrawBonus in H; peel H;
    unfold openBonusRequest, markWithdrawn, requestDecryption in H; simpl in H
  | unfold withdrawRemaining in H; peel H;
    unfold requestDecryption in H; simpl in H
  | idtac ];
  inversion H; subst; clear H; boolp.

Lemma flat_keep c s s' :
  pays c = false -> exec c s = Ok s' ->
  Keep s s' /\ SameRegistry s s' /\
  forall a, bonuses_paid a s' = bonuses_paid a s.
Proof.
  intros Hp H.
  flat_call c H;
    (split; [constructor | split; [intros id Hid | intros a]]);
    simpl; try reflexivity;
    try (exists []; symmetry; apply app_nil_r);
    try (intros a Ha; repeat split; assumption).
  - intros a Ha. insert_cases; subst; simpl; auto; congruence.
  - eexists. reflexivity.
  - intros a Ha. insert_cases; subst; simpl; auto.
  - apply fn_lookup_insert_ne. lia.
Qed.

Lemma receive_keep rcv : forall s s',
  _status s <> 0 -> receive rcv s = Some s' ->
  Keep s s' /\ SameRegistry s s' /\
  forall a, bonuses_paid a s' = bonuses_paid a s.
Proof.
  induction rcv as [| |c k IH]; simpl; intros s s' Hl H.
  - inversion H; subst. split; [apply Keep_refl|]. split; [intros id _|]; reflexivity.
  - discriminate.
  - destruct (exec c s) as [s1|e] eqn:E; simpl in H; [|apply IH; assumption].
    pose proof (locked_not_pays _ _ _ Hl E) as Hp.
    destruct (flat_keep _ _ _ Hp E) as (K1 & R1 & B1).
    destruct (exec_locked _ _ _ Hl E) as [F1 _].
    destruct (IH s1 s') as (K2 & R2 & B2);
      [rewrite (fr_status _ _ F1); assumption | assumption |].
    split; [eapply Keep_trans; eassumption|]. split.
    + intros id Hid. rewrite R2; [apply R1; assumption|].
      pose proof (fr_counter _ _ F1). lia.
    + intros a. rewrite B2. apply B1.
Qed.

Lemma exec_keep c s s' : exec c s = Ok s' -> Keep s s'.
Proof.
  intros H. destruct (pays c) eqn:Hp; [|apply (flat_keep _ _ _ Hp H)].
  destruct c; try discriminate; simpl in H.
  - apply callbackPayBonus_Ok in H as (H0 & e & mid & mid' & Hd & Hb & Hr & ->).
    apply payBonus_debit_Ok in Hd as (_ & _ & _ & _ & _ & _ & Hm).
    apply receive_keep in Hr as ([E [l L]] & _ & _); [|subst mid; simpl; lia].
    subst mid. simpl in *. constructor; simpl.
    + intros a Ha. destruct (E a Ha) as (C & R & S).
      insert_cases; subst; simpl; auto.
    + exists l. assumption.
  - apply callbackWithdrawRemaining_Ok in H
      as (H0 & mid & mid' & Hd & Hb & Hr & ->).
    apply withdrawRemaining_reset_Ok in Hd as (_ & _ & _ & _ & _ & Hm).
    apply receive_keep in Hr as ([E [l L]] & _ & _); [|subst mid; simpl; lia].
    subst mid. simpl in *. constructor; simpl.
    + intros a Ha. apply (E a Ha).
    + exists l. assumption.
Qed.

Lemma run_keep (cs : list Call) : forall s, Keep s (run cs s).
Proof.
  induction cs as [|c cs IH]; simpl; intros s; [apply Keep_refl|].
  destruct (exec c s) as [s1|e] eqn:E; simpl; [|apply IH].
  apply (Keep_trans s s1); [apply (exec_keep c); assumption | apply IH].
Qed.
Lemma Ledger_ext s t :
  employeeList t = employeeList s ->
  employees t = employees s ->
  requestToEmployee t = requestToEmployee s ->
  counterRequest t = counterRequest s ->
  events t = events s ->
  Ledger s -> Ledger t.
Proof.
  intros E1 E2 E3 E4 E5 [].
  constructor; unfold bonuses_paid in *; rewrite ?E1, ?E2, ?E3, ?E4, ?E5; auto.
Qed.

Lemma Ledger_constructor (deployer : address) : Ledger (constructor deployer).
Proof.
  constructor; simpl; intros; try reflexivity; try contradiction; auto.
  - constructor.
  - split; [contradiction | discriminate].
Qed.

Lemma flat_ledger c s s' :
  pays c = false -> Inv s -> Ledger s -> exec c s = Ok s' -> Ledger s'.
Proof.
  intros Hp HI HL H.
  destruct HL as [Lnd Llist Lblank Lfresh Luniq Lpend Lpaid].
  flat_call c H.
  - (* fundPool *)
    constructor; unfold bonuses_paid in *; simpl; auto.
    intros id Hid. apply Lfresh. lia.
  - (* callbackVerifyPool *)
    constructor; unfold bonuses_paid in *; simpl; auto.
  - (* commitPerformance *)
    constructor; unfold bonuses_paid in *; simpl; auto.
    + apply NoDup_app; [assumption | repeat constructor; intros [] |].
      intros a Ha [<-|[]]. apply Llist in Ha. congruence.
    + intros a. rewrite in_app_iff. simpl. rewrite Llist.
      insert_cases; subst; simpl; intuition congruence.
    + intros a Ha. insert_cases; subst; simpl in *; [discriminate | auto].
    + intros a. insert_cases; subst; simpl; [|apply Lpaid].
      left. destruct (Lpaid a) as [[P _]|[_ W]]; [auto | congruence].
  - (* withdrawBonus *)
    constructor; unfold bonuses_paid in *; simpl; auto.
    + intros a. rewrite Llist. insert_cases; subst; simpl; reflexivity.
    + intros a Ha. insert_cases; subst; simpl in *; [congruence | auto].
    + intros id Hid. insert_cases; [lia | apply Lfresh; lia].
    + intros id1 id2 H1 H2. insert_cases; subst; auto;
        exfalso;
        match goal with
        | Hn : requestToEmployee s ?i <> address0 |- _ =>
            pose proof (inv_pending _ HI i Hn); congruence
        end.
    + intros id Hid. insert_cases; subst; [|apply Lpend; assumption].
      destruct (Lpaid sender) as [[P _]|[_ W]]; [auto | congruence].
    + intros a. insert_cases; subst; simpl; [|apply Lpaid].
      destruct (Lpaid a) as [[P D]|[_ W]]; [auto | congruence].
  - (* withdrawRemaining *)
    constructor; unfold bonuses_paid in *; simpl; auto.
    intros id Hid. apply Lfresh. lia.
  - (* receive *)
    constructor; unfold bonuses_paid in *; simpl; auto.
Qed.
Lemma receive_ledger rcv : forall s s',
  _status s <> 0 -> Inv s -> Ledger s -> receive rcv s = Some s' -> Ledger s'.
Proof.
  induction rcv as [| |c k IH]; simpl; intros s s' Hl HI HL H.
  - inversion H; subst. assumption.
  - discriminate.
  - destruct (exec c s) as [s1|e] eqn:E; simpl in H; [|eapply IH; eassumption].
    destruct (exec_locked _ _ _ Hl E) as [F Q]. destruct (Q HI) as [HI1 _].
    apply (IH s1 s'); try assumption.
    + rewrite (fr_status _ _ F). assumption.
    + apply (flat_ledger c s s1); try assumption.
      apply (locked_not_pays _ _ _ Hl E).
Qed.

Lemma exec_ledger c s s' :
  Inv s -> Ledger s -> exec c s = Ok s' -> Ledger s'.
Proof.
  intros HI HL H. destruct (pays c) eqn:Hp;
    [|apply (flat_ledger c s s' Hp HI HL H)].
  destruct c; try discriminate; simpl in H.
  - apply callbackPayBonus_Ok in H as (H0 & e & mid & mid' & Hd & Hb & Hr & ->).
    apply payBonus_debit_Ok in Hd as (_ & He & Hne & _ & _ & _ & Hm).
    simpl in He.
    assert (Hlt : requestId < counterRequest s).
    { destruct (Z.lt_ge_cases requestId (counterRequest s)) as [Hlt|Hge];
        [assumption|].
      rewrite (lg_fresh _ HL _ Hge) in He. contradiction. }
    assert (HIm : Inv (during_transfer e cleartexts mid))
      by (subst mid; revert HI; apply Inv_ext; reflexivity).
    assert (HLm : Ledger (during_transfer e cleartexts mid))
      by (subst mid; revert HL; apply Ledger_ext; reflexivity).
    assert (Hst : _status (during_transfer e cleartexts mid) <> 0)
      by (subst mid; simpl; lia).
    pose proof (receive_ledger _ _ _ Hst HIm HLm Hr) as HL'.
    destruct (receive_keep _ _ _ Hst Hr) as (_ & R & _).
    destruct (receive_locked _ _ _ Hst Hr) as [_ Q].
    destruct (Q HIm) as [HI' _].
    assert (Hreg : requestToEmployee mid' requestId = e).
    { rewrite R; subst mid; simpl; [congruence | assumption]. }
    assert (Hw : hasWithdrawn (employees mid' e) = true).
    { rewrite <- Hreg. apply (inv_pending _ HI'). rewrite Hreg. assumption. }
    assert (Hun : bonuses_paid e mid' = []).
    { rewrite <- Hreg. apply (lg_pending _ HL'). rewrite Hreg. assumption. }
    clear HLm HIm Hst R Q Hr Hb Hm mid HL HI Hlt.
    destruct HL' as [Lnd Llist Lblank Lfresh Luniq Lpend Lpaid].
    constructor; unfold bonuses_paid in *; simpl; auto.
    + intros a. rewrite Llist. insert_cases; subst; simpl; reflexivity.
    + intros a Ha. insert_cases; subst; simpl in *; auto.
      rewrite (Lblank _ Ha) in Hw. discriminate.
    + intros id Hid. insert_cases; auto.
    + intros id1 id2 H1 H2. insert_cases; subst; auto; congruence.
    + intros id Hid. insert_cases.
      destruct (Z.eqb_spec e (requestToEmployee mid' id)) as [Heq|Hneq];
        [|apply Lpend; assumption].
      exfalso.
      match goal with Hd : requestId <> id |- _ => apply Hd end.
      apply Luniq; congruence.
    + intros a. destruct (Z.eqb_spec e a) as [<-|Hea].
      * right. rewrite Hun, fn_lookup_insert. simpl. auto.
      * rewrite fn_lookup_insert_ne by assumption. apply Lpaid.
  - apply callbackWithdrawRemaining_Ok in H
      as (H0 & mid & mid' & Hd & Hb & Hr & ->).
    apply withdrawRemaining_reset_Ok in Hd as (_ & _ & _ & _ & _ & Hm).
    assert (HIm : Inv (during_transfer (manager s) (actualPool s) mid))
      by (subst mid; revert HI; apply Inv_ext; reflexivity).
    assert (HLm : Ledger (during_transfer (manager s) (actualPool s) mid))
      by (subst mid; revert HL; apply Ledger_ext; reflexivity).
    assert (Hst : _status (during_transfer (manager s) (actualPool s) mid) <> 0)
      by (subst mid; simpl; lia).
    pose proof (receive_ledger _ _ _ Hst HIm HLm Hr) as HL'.
    destruct HL' as [Lnd Llist Lblank Lfresh Luniq Lpend Lpaid].
    constructor; unfold bonuses_paid in *; simpl; auto.
Qed.

Lemma reachable_Ledger s : reachable s -> Ledger s.
Proof.
  induction 1 as [d | c s s' HR IH H].
  - apply Ledger_constructor.
  - apply (exec_ledger c s s' (reachable_Inv _ HR) IH H).
Qed.

(** ** The employee list and the views *)

(** X3: in every reachable state the employee list holds each committed
    address once and nothing else. *)
Theorem employeeList_is_the_committed (s : State) :
  reachable s ->
  List.NoDup (employeeList s) /\
  forall a, In a (employeeList s) <-> hasCommitted (employees s a) = true.
Proof.
  intros HR. apply reachable_Ledger in HR.
  split; [apply (lg_nodup _ HR) | apply (lg_list _ HR)].
Qed.

Lemma employeeList_is_the_committed_witness :
  List.NoDup (employeeList bonus_paid) /\
  forall a,
    In a (employeeList bonus_paid)
    <-> hasCommitted (employees bonus_paid a) = true.
Proof.
  apply (employeeList_is_the_committed bonus_paid).
  apply reachable_run, reachable_run, reach_deploy.
Defined.

Lemma getEmployeeAt_Ok (i : Z) (s : State) (a : address) :
  getEmployeeAt i s = Ok a <->
  0 <= i < Z.of_nat (length (employeeList s)) /\
  nth (Z.to_nat i) (employeeList s) address0 = a.
Proof.
  unfold getEmployeeAt, getEmployeeCount. split.
  - intros H. peel H. inversion H; subst. boolp. split; [lia | reflexivity].
  - intros [[H0 H1] Hn].
    destruct (Z.leb_spec 0 i); [|lia].
    destruct (Z.ltb_spec i (Z.of_nat (length (employeeList s)))); [|lia].
    simpl. rewrite Hn. reflexivity.
Qed.

(** X4: an index of the employee list that answers an address keeps
    answering that address after any sequence of calls: the list only
    grows at its end. *)
Theorem getEmployeeAt_stable (i : Z) (a : address) (cs : list Call) (s : State) :
  getEmployeeAt i s = Ok a ->
  getEmployeeAt i (run cs s) = Ok a /\
  getEmployeeCount s <= getEmployeeCount (run cs s).
Proof.
  intros H. apply getEmployeeAt_Ok in H as [Hi Hn].
  destruct (keep_list _ _ (run_keep cs s)) as [l L].
  split.
  - apply getEmployeeAt_Ok. rewrite L, length_app. split; [lia|].
    rewrite app_nth1 by lia. assumption.
  - unfold getEmployeeCount. rewrite L, length_app. lia.
Qed.

Lemma getEmployeeAt_stable_witness :
  getEmployeeAt 0 (run a_round bonus_requested) = Ok anEmployee /\
  getEmployeeCount bonus_requested <= getEmployeeCount (run a_round bonus_requested).
Proof.
  apply (getEmployeeAt_stable 0 anEmployee a_round bonus_requested).
  vm_compute. reflexivity.
Defined.

(** X5: a successful commitment reads back: the caller's record shows the
    role given, committed, not withdrawn and no bonus, with the score
    submitted; the caller is appended to the list at the index that was out
    of bounds before; the record of every other address is as it was. *)
Theorem commitPerformance_reads_back (sender x : Z) (p : bool) (r : Role.t)
    (s s' : State) :
  exec (CommitPerformance sender x p r) s = Ok s' ->
  getEmployeeInfo sender s' = (r, true, false, 0) /\
  performance (employees s' sender) = Some x /\
  getEmployeeAt (getEmployeeCount s) s = Revert "Index out of bounds" /\
  getEmployeeAt (getEmployeeCount s) s' = Ok sender /\
  getEmployeeCount s' = getEmployeeCount s + 1 /\
  forall a, a <> sender -> employees s' a = employees s a.
Proof.
  intros H. simpl in H. unfold commitPerformance in H. peel H.
  inversion H; subst; clear H.
  unfold getEmployeeInfo, getEmployeeAt, getEmployeeCount. simpl.
  rewrite fn_lookup_insert. simpl. conjs; try reflexivity.
  - destruct (Z.leb_spec 0 (Z.of_nat (length (employeeList s)))); [|lia].
    rewrite Z.ltb_irrefl. reflexivity.
  - rewrite length_app. simpl.
    destruct (Z.leb_spec 0 (Z.of_nat (length (employeeList s)))); [|lia].
    destruct (Z.ltb_spec (Z.of_nat (length (employeeList s)))
                (Z.of_nat (length (employeeList s) + 1))); [|lia].
    simpl. rewrite Nat2Z.id, nth_middle. reflexivity.
  - rewrite length_app. simpl. lia.
  - intros a Ha. apply fn_lookup_insert_ne. congruence.
Qed.

Lemma commitPerformance_reads_back_witness :
  getEmployeeInfo anEmployee
    (run [CommitPerformance anEmployee 80 true Role.Mid] funding_requested)
  = (Role.Mid, true, false, 0).
Proof.
  apply (commitPerformance_reads_back anEmployee 80 true Role.Mid
           funding_requested).
  vm_compute. reflexivity.
Defined.

(** X6: in every reachable state an address that is not in the employee
    list reads as the default record: no role, not committed, not withdrawn,
    no bonus. *)
Theorem getEmployeeInfo_unknown (s : State) (a : address) :
  reachable s ->
  ~ In a (employeeList s) ->
  getEmployeeInfo a s = (Role.None, false, false, 0).
Proof.
  intros HR Hn. apply reachable_Ledger in HR.
  assert (Hc : hasCommitted (employees s a) = false).
  { destruct (hasCommitted (employees s a)) eqn:E; [|reflexivity].
    exfalso. apply Hn. apply (lg_list _ HR). assumption. }
  unfold getEmployeeInfo. rewrite (lg_blank _ HR a Hc). reflexivity.
Qed.

Lemma getEmployeeInfo_unknown_witness :
  getEmployeeInfo theManager bonus_paid = (Role.None, false, false, 0).
Proof.
  apply (getEmployeeInfo_unknown bonus_paid theManager).
  - apply reachable_run, reachable_run, reach_deploy.
  - vm_compute. intros [H|[]]. congruence.
Defined.

(** X7: once an employee has committed, no sequence of calls changes its
    role or its encrypted score, or uncommits it. *)
Theorem committed_role_is_fixed (cs : list Call) (s : State) (a : address) :
  hasCommitted (employees s a) = true ->
  hasCommitted (employees (run cs s) a) = true /\
  role (employees (run cs s) a) = role (employees s a) /\
  performance (employees (run cs s) a) = performance (employees s a).
Proof. intros H. apply (keep_employee _ _ (run_keep cs s) a H). Qed.

Lemma committed_role_is_fixed_witness :
  role (employees (run a_round bonus_requested) anEmployee) = Role.Mid.
Proof.
  assert (H : hasCommitted (employees bonus_requested anEmployee) = true)
    by (vm_compute; reflexivity).
  exact (proj1 (proj2 (committed_role_is_fixed a_round bonus_requested
                         anEmployee H))).
Defined.

(** ** Who may call, and what the callbacks check *)

Lemma run_Inv (cs : list Call) : forall s,
  Inv s -> Inv (run cs s) /\ manager (run cs s) = manager s.
Proof.
  induction cs as [|c cs IH]; simpl; intros s HI; [auto|].
  destruct (exec c s) as [s1|e] eqn:E; simpl; [|apply IH; assumption].
  destruct (exec_step c s s1 HI E) as [HI1 St].
  destruct (IH s1 HI1) as [HI2 Hm].
  split; [assumption|]. rewrite Hm. apply (st_manager _ _ St).
Qed.

(** X8: the manager is the deployer for good: after any sequence of calls
    from deployment the manager is still the deployer, and a remainder
    withdrawal by anyone else reverts with "Only manager" and changes
    nothing. *)
Theorem manager_is_the_deployer (deployer sender : address) (cs : list Call) :
  sender <> deployer ->
  manager (run cs (constructor deployer)) = deployer /\
  exec (WithdrawRemaining sender) (run cs (constructor deployer))
    = Revert "Only manager" /\
  state_after (run cs (constructor deployer))
    (exec (WithdrawRemaining sender) (run cs (constructor deployer)))
    = run cs (constructor deployer).
Proof.
  intros Hne.
  destruct (run_Inv cs _ (Inv_constructor deployer)) as [_ Hm].
  simpl in Hm. split; [exact Hm|].
  assert (E : exec (WithdrawRemaining sender) (run cs (constructor deployer))
              = Revert "Only manager").
  { simpl. unfold withdrawRemaining, onlyManager. rewrite Hm.
    destruct (Z.eqb_spec sender deployer); [contradiction | reflexivity]. }
  rewrite E. split; reflexivity.
Qed.

Lemma manager_is_the_deployer_witness :
  manager (run a_round (constructor theManager)) = theManager /\
  exec (WithdrawRemaining anEmployee) (run a_round (constructor theManager))
    = Revert "Only manager".
Proof.
  assert (Hne : anEmployee <> theManager) by (vm_compute; congruence).
  destruct (manager_is_the_deployer theManager anEmployee a_round Hne)
    as (Hm & He & _).
  split; [exact Hm | exact He].
Defined.

(** X9: a bonus callback that passes the signature check for a registered
    request reverts with "Bonus zero" when the decrypted bonus is 0, with
    "Insufficient pool funds" when it exceeds the cleartext pool, and with
    "Failed to send ETH" when the contract's balance does not cover it or the
    employee refuses the ETH; otherwise, the employee making no call of its
    own, it debits the cleartext pool, the encrypted pool and the balance by
    the bonus, records the bonus, deletes the request, logs one transfer and
    emits [BonusWithdrawn]. *)
Theorem callbackPayBonus_settlement (id c : Z) (p : bool) (s : State) :
  _status s = 0 ->
  checkSignatures id c p s = Ok tt ->
  requestToEmployee s id <> address0 ->
  0 <= c < uint64_modulus ->
  (c = 0 -> forall rcv,
     exec (CallbackPayBonus id c p rcv) s = Revert "Bonus zero") /\
  (0 < c -> actualPool s < c -> forall rcv,
     exec (CallbackPayBonus id c p rcv) s = Revert "Insufficient pool funds") /\
  (0 < c <= actualPool s -> balance s < c -> forall rcv,
     exec (CallbackPayBonus id c p rcv) s = Revert "Failed to send ETH") /\
  (0 < c <= actualPool s ->
     exec (CallbackPayBonus id c p Reject) s = Revert "Failed to send ETH") /\
  (0 < c <= actualPool s -> c <= balance s ->
   exists s',
     exec (CallbackPayBonus id c p Accept) s = Ok s' /\
     actualPool s' = actualPool s - c /\
     encryptedPool s' = FHE.sub (encryptedPool s) (FHE.asEuint64 c) /\
     balance s' = balance s - c /\
     decryptedBonus (employees s' (requestToEmployee s id)) = c /\
     requestToEmployee s' id = address0 /\
     transfers s' = (requestToEmployee s id, c) :: transfers s /\
     events s' = BonusWithdrawn (requestToEmployee s id) c :: events s).
Proof.
  intros Hst Hsig Hreg Hc.
  assert (Hsig1 : checkSignatures id c p (set_status 1 s) = Ok tt)
    by (rewrite <- Hsig; apply checkSignatures_ext; reflexivity).
  assert (Hdec : abi_decode_uint64 c = Ok c).
  { unfold abi_decode_uint64.
    destruct (Z.leb_spec 0 c); [|lia].
    destruct (Z.ltb_spec c uint64_modulus); [reflexivity | lia]. }
  assert (Hne : negb (requestToEmployee s id =? address0) = true).
  { apply negb_true_iff. apply Z.eqb_neq. assumption. }
  assert (Hpre : forall rcv,
    exec (CallbackPayBonus id c p rcv) s =
      bind (require (0 <? c) "Bonus zero" ;;;
            require (c <=? actualPool s) "Insufficient pool funds")
        (fun _ =>
           match call_value (receive rcv) (requestToEmployee s id) c
                   (set_actualPool (actualPool s - c)
                      (set_encryptedPool
                         (FHE.sub (encryptedPool s) (FHE.asEuint64 c))
                         (set_status 1 s))) with
           | Some s1 =>
               Ok (set_status 0
                     (payBonus_record id (requestToEmployee s id) c s1))
           | None => Revert "Failed to send ETH"
           end)).
  { intros rcv. simpl. unfold callbackPayBonus, nonReentrant.
    rewrite Hst. simpl. unfold payBonus_debit. rewrite Hsig1. simpl.
    rewrite Hne. simpl. rewrite Hdec. simpl.
    destruct (0 <? c); simpl; [|reflexivity].
    destruct (c <=? actualPool s); simpl; [|reflexivity].
    destruct (call_value _ _ _ _); reflexivity. }
  conjs.
  - intros -> rcv. rewrite Hpre. reflexivity.
  - intros Hpos Hgt rcv. rewrite Hpre.
    destruct (Z.ltb_spec 0 c); [|lia].
    destruct (Z.leb_spec c (actualPool s)); [lia | reflexivity].
  - intros Hpos Hbal rcv. rewrite Hpre.
    destruct (Z.ltb_spec 0 c); [|lia].
    destruct (Z.leb_spec c (actualPool s)); [|lia]. simpl.
    unfold call_value. simpl.
    destruct (Z.ltb_spec (balance s) c); [reflexivity | lia].
  - intros Hpos. rewrite Hpre.
    destruct (Z.ltb_spec 0 c); [|lia].
    destruct (Z.leb_spec c (actualPool s)); [|lia]. simpl.
    unfold call_value. simpl.
    destruct (balance s <? c); reflexivity.
  - intros Hpos Hbal. rewrite Hpre.
    destruct (Z.ltb_spec 0 c); [|lia].
    destruct (Z.leb_spec c (actualPool s)); [|lia]. simpl.
    unfold call_value. simpl.
    destruct (Z.ltb_spec (balance s) c); [lia|].
    eexists. split; [reflexivity|]. simpl.
    rewrite !fn_lookup_insert. conjs; reflexivity.
Qed.

Lemma callbackPayBonus_settlement_witness :
  exists s',
    exec (CallbackPayBonus 1 64000 true Accept) bonus_requested = Ok s' /\
    actualPool s' = actualPool bonus_requested - 64000.
Proof.
  assert (Hst : _status bonus_requested = 0) by (vm_compute; reflexivity).
  assert (Hsig : checkSignatures 1 64000 true bonus_requested = Ok tt)
    by (vm_compute; reflexivity).
  assert (Hreg : requestToEmployee bonus_requested 1 <> address0)
    by (vm_compute; congruence).
  assert (Hc : 0 <= 64000 < uint64_modulus) by (vm_compute; split; congruence).
  assert (Hpos : 0 < 64000 <= actualPool bonus_requested)
    by (vm_compute; split; congruence).
  assert (Hbal : 64000 <= balance bonus_requested) by (vm_compute; congruence).
  destruct (callbackPayBonus_settlement 1 64000 true bonus_requested
              Hst Hsig Hreg Hc) as (_ & _ & _ & _ & Hacc).
  destruct (Hacc Hpos Hbal) as (s' & He & Ha & _).
  exists s'. split; [exact He | exact Ha].
Defined.

(** X10: in every reachable state an employee has at most one
    [BonusWithdrawn] event, and the bonus recorded for it is the amount of
    that event, or 0 when there is none. *)
Theorem bonus_paid_at_most_once (s : State) (a : address) :
  reachable s ->
  (length (bonuses_paid a s) <= 1)%nat /\
  (forall b, In (BonusWithdrawn a b) (events s) ->
     decryptedBonus (employees s a) = b /\
     hasWithdrawn (employees s a) = true) /\
  (bonuses_paid a s = [] -> decryptedBonus (employees s a) = 0).
Proof.
  intros HR. apply reachable_Ledger in HR.
  destruct (lg_paid _ HR a) as [[P D]|[P W]].
  - rewrite P. split; [simpl; lia|]. split; [|auto].
    intros b Hin.
    assert (Hf : In (BonusWithdrawn a b) (bonuses_paid a s)).
    { apply filter_In. split; [assumption|]. simpl. apply Z.eqb_refl. }
    rewrite P in Hf. contradiction.
  - rewrite P. split; [simpl; lia|]. split; [|discriminate].
    intros b Hin.
    assert (Hf : In (BonusWithdrawn a b) (bonuses_paid a s)).
    { apply filter_In. split; [assumption|]. simpl. apply Z.eqb_refl. }
    rewrite P in Hf. destruct Hf as [E|[]]. inversion E. auto.
Qed.

Lemma bonus_paid_at_most_once_witness :
  decryptedBonus (employees bonus_paid anEmployee) = 64000 /\
  hasWithdrawn (employees bonus_paid anEmployee) = true.
Proof.
  assert (HR : reachable bonus_paid)
    by (apply reachable_run, reachable_run, reach_deploy).
  assert (Hin : In (BonusWithdrawn anEmployee 64000) (events bonus_paid))
    by (vm_compute; left; reflexivity).
  exact (proj1 (proj2 (bonus_paid_at_most_once bonus_paid anEmployee HR))
           64000 Hin).
Defined.

(** A registered request below the counter is only ever removed by its own
    bonus callback. *)
Lemma registry_step c s s' id :
  exec c s = Ok s' -> id < counterRequest s ->
  requestToEmployee s' id = requestToEmployee s id \/
  exists v p rcv, c = CallbackPayBonus id v p rcv.
Proof.
  intros H Hid. destruct (pays c) eqn:Hp.
  - destruct c; try discriminate; simpl in H.
    + apply callbackPayBonus_Ok in H
        as (H0 & e & mid & mid' & Hd & Hb & Hr & ->).
      apply payBonus_debit_Ok in Hd as (_ & _ & _ & _ & _ & _ & Hm).
      apply receive_keep in Hr as (_ & R & _); [|subst mid; simpl; lia].
      destruct (Z.eq_dec requestId id) as [->|Hne]; [right; eauto|].
      left. simpl. rewrite fn_lookup_insert_ne by assumption.
      rewrite R; subst mid; simpl; [reflexivity | assumption].
    + apply callbackWithdrawRemaining_Ok in H
        as (H0 & mid & mid' & Hd & Hb & Hr & ->).
      apply withdrawRemaining_reset_Ok in Hd as (_ & _ & _ & _ & _ & Hm).
      apply receive_keep in Hr as (_ & R & _); [|subst mid; simpl; lia].
      left. simpl. rewrite R; subst mid; simpl; [reflexivity | assumption].
  - left. destruct (flat_keep _ _ _ Hp H) as (_ & R & _). apply R. assumption.
Qed.

(** A request whose decrypted bonus is 0 stays registered whatever is
    called. *)
Lemma zero_request_stays (cs : list Call) : forall s id,
  Inv s -> id < counterRequest s ->
  requestedHandles s id = Some 0 ->
  requestedHandles (run cs s) id = Some 0 /\
  requestToEmployee (run cs s) id = requestToEmployee s id.
Proof.
  induction cs as [|c cs IH]; simpl; intros s id HI Hid Hh; [auto|].
  destruct (exec c s) as [s1|e] eqn:E; simpl; [|apply IH; assumption].
  destruct (exec_step c s s1 HI E) as [HI1 St].
  assert (Hh1 : requestedHandles s1 id = Some 0)
    by (rewrite (st_handles _ _ St) by assumption; assumption).
  assert (Hid1 : id < counterRequest s1)
    by (pose proof (st_counter _ _ St); lia).
  destruct (IH s1 id HI1 Hid1 Hh1) as [Hh' Hr'].
  split; [assumption|]. rewrite Hr'.
  destruct (registry_step c s s1 id E Hid) as [R|(v & p & rcv & ->)];
    [assumption|].
  exfalso. simpl in E.
  apply callbackPayBonus_Ok in E as (_ & e & mid & mid' & Hd & _ & _ & _).
  apply payBonus_debit_Ok in Hd as (Hs & _ & _ & _ & Hpos & _ & _).
  apply checkSignatures_Ok in Hs as [Hs _]. simpl in Hs.
  rewrite Hh in Hs. inversion Hs. lia.
Qed.

(** X11: a bonus withdrawal whose computed bonus decrypts to 0 forfeits the
    bonus for good: whatever is called afterwards, the callback of that
    request reverts, the request stays registered, the employee stays
    flagged as withdrawn, so that it can neither withdraw nor commit again,
    and it is never paid. *)
Theorem zero_bonus_is_forfeited (a : address) (s s' : State) (cs : list Call) :
  reachable s ->
  a <> address0 ->
  exec (WithdrawBonus a) s = Ok s' ->
  requestedHandles s' (counterRequest s) = Some 0 ->
  (forall c p rcv,
     exists reason,
       exec (CallbackPayBonus (counterRequest s) c p rcv) (run cs s')
         = Revert reason) /\
  requestToEmployee (run cs s') (counterRequest s) = a /\
  hasWithdrawn (employees (run cs s') a) = true /\
  bonuses_paid a (run cs s') = [] /\
  decryptedBonus (employees (run cs s') a) = 0 /\
  exec (WithdrawBonus a) (run cs s') = Revert "Already withdrawn" /\
  (forall x p r,
     exists reason,
       exec (CommitPerformance a x p r) (run cs s') = Revert reason).
Proof.
  intros HR Ha H Hh.
  assert (HR' : reachable s') by (eapply reach_exec; eassumption).
  assert (HRrun : reachable (run cs s')) by (apply reachable_run; assumption).
  pose proof (reachable_Inv _ HR') as HI'.
  assert (Hreg : requestToEmployee s' (counterRequest s) = a /\
                 counterRequest s < counterRequest s').
  { simpl in H. unfold withdrawBonus in H. peel H. inversion H; subst.
    unfold openBonusRequest, markWithdrawn, requestDecryption. simpl.
    rewrite fn_lookup_insert. split; [reflexivity | lia]. }
  destruct Hreg as [Hreg Hlt].
  destruct (zero_request_stays cs s' _ HI' Hlt Hh) as [Hh' Hr'].
  rewrite Hreg in Hr'.
  pose proof (reachable_Ledger _ HRrun) as HL.
  pose proof (reachable_Inv _ HRrun) as HIr.
  assert (Hw : hasWithdrawn (employees (run cs s') a) = true).
  { rewrite <- Hr'. apply (inv_pending _ HIr). rewrite Hr'. assumption. }
  assert (Hun : bonuses_paid a (run cs s') = []).
  { rewrite <- Hr' at 1. apply (lg_pending _ HL). rewrite Hr'. assumption. }
  assert (Hcm : hasCommitted (employees (run cs s') a) = true).
  { destruct (hasCommitted (employees (run cs s') a)) eqn:E; [reflexivity|].
    rewrite (lg_blank _ HL a E) in Hw. discriminate. }
  conjs; try assumption.
  - intros c p rcv. simpl. unfold callbackPayBonus, nonReentrant.
    destruct (_status (run cs s') =? 0); simpl; [|eauto].
    unfold payBonus_debit, checkSignatures. simpl. rewrite Hh'.
    destruct p; simpl; [|eauto].
    destruct (Z.eqb_spec c 0) as [->|Hc]; simpl; [|eauto].
    rewrite Hr'. destruct (negb (a =? address0)); simpl; eauto.
  - destruct (lg_paid _ HL a) as [[_ D]|[P _]]; [assumption|].
    rewrite Hun in P. discriminate.
  - simpl. unfold withdrawBonus. rewrite Hcm, Hw. reflexivity.
  - intros x p r. simpl. unfold commitPerformance.
    destruct (negb (Role.eqb r Role.None)); simpl; [|eauto].
    rewrite Hw. simpl. eauto.
Qed.

Lemma zero_bonus_is_forfeited_witness :
  bonuses_paid anEmployee
    (run [FundPool theManager 1000000 1000000 true;
          CallbackPayBonus 0 0 true Accept]
       (run [WithdrawBonus anEmployee] committed_unfunded)) = [].
Proof.
  assert (HR : reachable committed_unfunded)
    by (apply reachable_run, reach_deploy).
  assert (Ha : anEmployee <> address0) by (vm_compute; congruence).
  assert (H : exec (WithdrawBonus anEmployee) committed_unfunded
              = Ok (run [WithdrawBonus anEmployee] committed_unfunded))
    by (vm_compute; reflexivity).
  assert (Hh : requestedHandles (run [WithdrawBonus anEmployee] committed_unfunded)
                 (counterRequest committed_unfunded) = Some 0)
    by (vm_compute; reflexivity).
  destruct (zero_bonus_is_forfeited anEmployee committed_unfunded _
              [FundPool theManager 1000000 1000000 true;
               CallbackPayBonus 0 0 true Accept] HR Ha H Hh)
    as (_ & _ & _ & Hun & _).
  exact Hun.
Defined.

(** X12: a successful funding verification changes nothing but the pool
    slot, which it sets to 0, and it succeeds only when the decrypted amount
    is the whole cleartext pool; presented again it reverts with "Invalid
    request ID" when its id is not 0, and succeeds again when its id is 0. *)
Theorem callbackVerifyPool_once (id c : Z) (p : bool) (s s' : State) :
  exec (CallbackVerifyPool id c p) s = Ok s' ->
  s' = set_decryptionRequestIdPool 0 s /\
  c = actualPool s /\
  (id <> 0 ->
   exec (CallbackVerifyPool id c p) s' = Revert "Invalid request ID") /\
  (id = 0 -> exec (CallbackVerifyPool id c p) s' = Ok s').
Proof.
  intros H. simpl in H. unfold callbackVerifyPool in H.
  apply bind_Ok in H as [[] [Hs H]]. peel H. inversion H; subst; clear H.
  boolp. conjs; try reflexivity; try assumption.
  - intros Hne. simpl. unfold callbackVerifyPool.
    rewrite (checkSignatures_ext _ _ _ s) by reflexivity. rewrite Hs. simpl.
    match goal with
    | |- context [?i =? 0] => destruct (Z.eqb_spec i 0); [congruence|]
    end.
    reflexivity.
  - intros H0. simpl. unfold callbackVerifyPool.
    rewrite (checkSignatures_ext _ _ _ s) by reflexivity. rewrite Hs. simpl.
    rewrite H0. simpl. unfold abi_decode_uint64.
    destruct (Z.leb_spec 0 c); [|lia].
    destruct (Z.ltb_spec c uint64_modulus); [|lia]. simpl.
    destruct (Z.eqb_spec c (actualPool s)); [reflexivity | contradiction].
Qed.

Lemma callbackVerifyPool_once_witness :
  exec (CallbackVerifyPool 0 1000000 true)
    (set_decryptionRequestIdPool 0 funding_requested)
  = Ok (set_decryptionRequestIdPool 0 funding_requested).
Proof.
  assert (H : exec (CallbackVerifyPool 0 1000000 true) funding_requested
              = Ok (set_decryptionRequestIdPool 0 funding_requested))
    by (vm_compute; reflexivity).
  exact (proj2 (proj2 (proj2 (callbackVerifyPool_once 0 1000000 true
           funding_requested _ H))) eq_refl).
Defined.

(** X13: in a reachable state a commitment succeeds exactly when the role
    is not None, the caller has not committed yet and the encrypted score
    comes with a valid proof: the tests on the withdrawn flag and on the
    pool never decide.  Right after it, the caller's bonus withdrawal
    succeeds. *)
Theorem commitPerformance_succeeds_iff (sender x : Z) (p : bool) (r : Role.t)
    (s : State) :
  reachable s ->
  ((exists s', exec (CommitPerformance sender x p r) s = Ok s') <->
   r <> Role.None /\ hasCommitted (employees s sender) = false /\
   p = true /\ 0 <= x < uint64_modulus) /\
  (forall s', exec (CommitPerformance sender x p r) s = Ok s' ->
     exists s'', exec (WithdrawBonus sender) s' = Ok s'').
Proof.
  intros HR. pose proof (reachable_Ledger _ HR) as HL.
  pose proof (reachable_Inv _ HR) as HI. split; [split|].
  - intros [s' H]. simpl in H. unfold commitPerformance in H. peel H.
    boolp. conjs; try tauto; try lia.
    intros ->. discriminate.
  - intros (Hr & Hc & -> & Hx). simpl. unfold commitPerformance.
    assert (Hw : hasWithdrawn (employees s sender) = false)
      by (rewrite (lg_blank _ HL sender Hc); reflexivity).
    assert (Hn : negb (Role.eqb r Role.None) = true)
      by (destruct r; try reflexivity; contradiction).
    rewrite Hn, Hw, (inv_pool _ HI), Hc. simpl.
    unfold FHE.fromExternal. simpl.
    destruct (Z.leb_spec 0 x); [|lia].
    destruct (Z.ltb_spec x uint64_modulus); [|lia]. simpl. eauto.
  - intros s' H. simpl in H. unfold commitPerformance in H. peel H.
    inversion H; subst; clear H. simpl. unfold withdrawBonus. simpl.
    rewrite fn_lookup_insert. simpl. eauto.
Qed.

Lemma commitPerformance_succeeds_iff_witness :
  exists s', exec (CommitPerformance anEmployee 80 true Role.Mid)
               funding_requested = Ok s'.
Proof.
  assert (HR : reachable funding_requested)
    by (apply reachable_run, reach_deploy).
  apply (proj2 (proj1 (commitPerformance_succeeds_iff anEmployee 80 true
                         Role.Mid funding_requested HR))).
  conjs; try (vm_compute; congruence); vm_compute; reflexivity.
Defined.

(** X14: once the remainder has been paid out, the manager calling back
    nothing during the transfer, no bonus callback succeeds, whatever it
    presents: the cleartext pool is empty. *)
Theorem remainder_strands_bonuses (id c : Z) (p : bool) (s s' : State) :
  exec (CallbackWithdrawRemaining id c p Accept) s = Ok s' ->
  actualPool s' = 0 /\
  forall id' c' p' rcv',
    exists reason,
      exec (CallbackPayBonus id' c' p' rcv') s' = Revert reason.
Proof.
  intros H. simpl in H.
  apply callbackWithdrawRemaining_Ok in H as (H0 & mid & mid' & Hd & Hb & Hr & ->).
  apply withdrawRemaining_reset_Ok in Hd as (_ & _ & _ & _ & _ & Hm).
  simpl in Hr. inversion Hr; subst; clear Hr. simpl.
  split; [reflexivity|].
  intros id' c' p' rcv'. simpl. unfold callbackPayBonus, nonReentrant. simpl.
  unfold payBonus_debit.
  destruct (checkSignatures id' c' p' _); simpl; [|eauto].
  destruct (negb (requestToEmployee s id' =? address0)); simpl; [|eauto].
  destruct (abi_decode_uint64 c') as [b|e] eqn:Ed; simpl; [|eauto].
  destruct (Z.ltb_spec 0 b); simpl; [|eauto].
  destruct (Z.leb_spec b 0); [lia|]. simpl. eauto.
Qed.

Lemma remainder_strands_bonuses_witness :
  actualPool (run [CallbackWithdrawRemaining 1 1000000 true Accept]
                remainder_requested) = 0.
Proof.
  apply (remainder_strands_bonuses 1 1000000 true remainder_requested).
  vm_compute. reflexivity.
Defined.

(** ** A request and its callback *)

(** X15: a successful funding is verified by the callback of its request
    exactly when the amount encrypted is the whole cleartext pool after the
    funding; a funding that sends what it encrypts is therefore verified
    exactly when the pool was empty before it, and reverts with "Encrypted
    pool mismatch" otherwise. *)
Theorem fundPool_then_verify (sender value x : Z) (p : bool) (s s1 : State) :
  exec (FundPool sender value x p) s = Ok s1 ->
  exec (CallbackVerifyPool (counterRequest s) x true) s1 =
    (if x =? actualPool s + value
     then Ok (set_decryptionRequestIdPool 0 s1)
     else Revert "Encrypted pool mismatch") /\
  (value = x ->
   ((exists s2, exec (CallbackVerifyPool (counterRequest s) x true) s1 = Ok s2)
    <-> actualPool s = 0)).
Proof.
  intros H. simpl in H. unfold fundPool in H. peel H.
  unfold requestDecryption in H. simpl in H. inversion H; subst; clear H.
  boolp. destruct Hx as [_ Hx].
  assert (E : exec (CallbackVerifyPool (counterRequest s) x true)
                (emit (PoolFunded (manager s) value (counterRequest s))
                   (set_decryptionRequestIdPool (counterRequest s)
                      (set_requests (counterRequest s + 1)
                         (<[counterRequest s:=Some x]> (requestedHandles s))
                         (set_encryptedPool (FHE.add (encryptedPool s) (Some x))
                            (set_actualPool (actualPool s + value)
                               (set_balance (balance s + value) s))))))
              = if x =? actualPool s + value
                then Ok (set_decryptionRequestIdPool 0
                   (emit (PoolFunded (manager s) value (counterRequest s))
                   (set_decryptionRequestIdPool (counterRequest s)
                      (set_requests (counterRequest s + 1)
                         (<[counterRequest s:=Some x]> (requestedHandles s))
                         (set_encryptedPool (FHE.add (encryptedPool s) (Some x))
                            (set_actualPool (actualPool s + value)
                               (set_balance (balance s + value) s)))))))
                else Revert "Encrypted pool mismatch").
  { apply callbackVerifyPool_accepts; try assumption; try reflexivity.
    unfold checkSignatures. simpl. rewrite fn_lookup_insert.
    rewrite Z.eqb_refl. reflexivity. }
  split; [exact E|].
  intros ->. rewrite E. split.
  - intros [s2 H2]. destruct (Z.eqb_spec x (actualPool s + x)); [lia | discriminate].
  - intros H0. destruct (Z.eqb_spec x (actualPool s + x)); [eauto | lia].
Qed.

Lemma fundPool_then_verify_witness :
  exists s2,
    exec (CallbackVerifyPool 0 1000000 true) funding_requested = Ok s2.
Proof.
  assert (H : exec (FundPool theManager 1000000 1000000 true)
                (constructor theManager) = Ok funding_requested)
    by (vm_compute; reflexivity).
  apply (proj2 (proj2 (fundPool_then_verify theManager 1000000 1000000 true
                         (constructor theManager) funding_requested H)
                  eq_refl)).
  vm_compute. reflexivity.
Defined.

(** X16: the remainder round trip.  When the encrypted pool encrypts the
    cleartext pool, which is positive, below 2^64 and covered by the
    balance, the manager's withdrawal opens a request whose genuine answer,
    the cleartext pool, is accepted by the callback: with a manager that
    takes the ETH, the pool is emptied and all of it transferred to the
    manager. *)
Theorem withdrawRemaining_round_trip (s : State) :
  _status s = 0 ->
  pools_agree s ->
  0 < actualPool s < uint64_modulus ->
  actualPool s <= balance s ->
  exists s1 s2,
    exec (WithdrawRemaining (manager s)) s = Ok s1 /\
    checkSignatures (counterRequest s) (actualPool s) true s1 = Ok tt /\
    exec (CallbackWithdrawRemaining (counterRequest s) (actualPool s) true
            Accept) s1 = Ok s2 /\
    actualPool s2 = 0 /\
    encryptedPool s2 = FHE.asEuint64 0 /\
    balance s2 = balance s - actualPool s /\
    transfers s2 = (manager s, actualPool s) :: transfers s.
Proof.
  intros Hst [_ Hag] Hpos Hbal.
  assert (Hdec : FHE.decrypt (encryptedPool s) = actualPool s)
    by (rewrite Hag; apply uint64_small; lia).
  eexists. eexists. split.
  { simpl. unfold withdrawRemaining, onlyManager. rewrite Z.eqb_refl. simpl.
    destruct (Z.ltb_spec 0 (actualPool s)); [|lia]. simpl.
    unfold requestDecryption. simpl. reflexivity. }
  split.
  { unfold checkSignatures. simpl. rewrite fn_lookup_insert, Hdec.
    rewrite Z.eqb_refl. reflexivity. }
  split.
  { simpl. unfold callbackWithdrawRemaining, nonReentrant. simpl.
    rewrite Hst. simpl. unfold withdrawRemaining_reset, checkSignatures. simpl.
    rewrite fn_lookup_insert, Hdec, !Z.eqb_refl. simpl.
    unfold abi_decode_uint64.
    destruct (Z.leb_spec 0 (actualPool s)); [|lia].
    destruct (Z.ltb_spec (actualPool s) uint64_modulus); [|lia]. simpl.
    destruct (Z.leb_spec (actualPool s) (actualPool s)); [|lia]. simpl.
    destruct (Z.ltb_spec 0 (actualPool s)); [|lia]. simpl.
    unfold call_value. simpl.
    destruct (Z.ltb_spec (balance s) (actualPool s)); [lia|]. reflexivity. }
  simpl. conjs; reflexivity.
Qed.

Lemma withdrawRemaining_round_trip_witness :
  exists s1 s2,
    exec (WithdrawRemaining (manager bonus_paid)) bonus_paid = Ok s1 /\
    checkSignatures (counterRequest bonus_paid) (actualPool bonus_paid) true s1
      = Ok tt /\
    exec (CallbackWithdrawRemaining (counterRequest bonus_paid)
            (actualPool bonus_paid) true Accept) s1 = Ok s2 /\
    actualPool s2 = 0 /\
    encryptedPool s2 = FHE.asEuint64 0 /\
    balance s2 = balance bonus_paid - actualPool bonus_paid /\
    transfers s2 = (manager bonus_paid, actualPool bonus_paid)
                     :: transfers bonus_paid.
Proof.
  apply (withdrawRemaining_round_trip bonus_paid).
  - vm_compute. reflexivity.
  - split; vm_compute; [congruence | reflexivity].
  - split; vm_compute; reflexivity.
  - vm_compute. congruence.
Defined.

(** X17: the bonus round trip.  After a successful bonus withdrawal, the
    genuine answer to its request, the decrypted bonus, is accepted by the
    callback whenever it is positive and covered by the cleartext pool and
    the balance: with an employee that takes the ETH, exactly the bonus is
    paid to the caller of the withdrawal and recorded for it. *)
Theorem withdrawBonus_round_trip (a : address) (s s1 : State) :
  _status s = 0 ->
  a <> address0 ->
  exec (WithdrawBonus a) s = Ok s1 ->
  let b := FHE.decrypt
             (encryptedBonus (performance (employees s a))
                (rolePercentage s (role (employees s a))) (encryptedPool s)) in
  0 < b <= actualPool s ->
  b <= balance s ->
  exists s2,
    exec (CallbackPayBonus (counterRequest s) b true Accept) s1 = Ok s2 /\
    transfers s2 = (a, b) :: transfers s /\
    actualPool s2 = actualPool s - b /\
    decryptedBonus (employees s2 a) = b /\
    hasWithdrawn (employees s2 a) = true /\
    requestToEmployee s2 (counterRequest s) = address0.
Proof.
  intros Hst Ha H b Hpos Hbal.
  simpl in H. unfold withdrawBonus in H. peel H. inversion H; subst; clear H.
  assert (Hb64 : 0 <= b < uint64_modulus).
  { split; [lia|]. unfold b. rewrite encryptedBonus_decrypt. simpl.
    apply Z.div_lt_upper_bound; [lia|].
    pose proof (Z.mod_pos_bound
      (uint64 (FHE.decrypt (performance (employees s a))
               * uint64 (rolePercentage s (role (employees s a)))) / 100
       * FHE.decrypt (encryptedPool s)) uint64_modulus) as Hm.
    unfold uint64 at 1. unfold uint64_modulus in *. lia. }
  assert (Hdec : abi_decode_uint64 b = Ok b).
  { unfold abi_decode_uint64.
    destruct (Z.leb_spec 0 b); [|lia].
    destruct (Z.ltb_spec b uint64_modulus); [reflexivity | lia]. }
  eexists. split.
  { simpl. unfold callbackPayBonus, nonReentrant.
    unfold openBonusRequest, markWithdrawn, requestDecryption. simpl.
    rewrite Hst. simpl. unfold payBonus_debit, checkSignatures. simpl.
    rewrite !fn_lookup_insert. fold b. rewrite Z.eqb_refl. simpl.
    destruct (Z.eqb_spec a address0); [contradiction|]. simpl.
    rewrite Hdec. simpl.
    destruct (Z.ltb_spec 0 b); [|lia]. simpl.
    destruct (Z.leb_spec b (actualPool s)); [|lia]. simpl.
    unfold call_value. simpl.
    destruct (Z.ltb_spec (balance s) b); [lia|]. reflexivity. }
  simpl. rewrite !fn_lookup_insert. simpl. conjs; reflexivity.
Qed.

Lemma withdrawBonus_round_trip_witness :
  exists s2,
    exec (CallbackPayBonus 1 64000 true Accept) bonus_requested = Ok s2 /\
    transfers s2 = [(anEmployee, 64000)].
Proof.
  pose (s := run [FundPool theManager 1000000 1000000 true;
                  CallbackVerifyPool 0 1000000 true;
                  CommitPerformance anEmployee 80 true Role.Mid]
               (constructor theManager)).
  assert (Hst : _status s = 0) by (vm_compute; reflexivity).
  assert (Ha : anEmployee <> address0) by (vm_compute; congruence).
  assert (H : exec (WithdrawBonus anEmployee) s = Ok bonus_requested)
    by (vm_compute; reflexivity).
  assert (Hpos : 0 < 64000 <= actualPool s) by (vm_compute; split; congruence).
  assert (Hbal : 64000 <= balance s) by (vm_compute; congruence).
  destruct (withdrawBonus_round_trip anEmployee s bonus_requested Hst Ha H
              Hpos Hbal) as (s2 & He & Ht & _).
  exists s2. split; [exact He | exact Ht].
Defined.

(** ** The two request registries *)

(** A call without transfer that is not one of the three writers leaves the
    pool slot alone. *)
Lemma flat_pool_slot c s s' :
  pays c = false -> writes_pool_slot c = false -> exec c s = Ok s' ->
  decryptionRequestIdPool s' = decryptionRequestIdPool s.
Proof.
  intros Hp Hw H. destruct c; try discriminate; simpl in H.
  - unfold commitPerformance in H. peel H. inversion H; subst. reflexivity.
  - unfold withdrawBonus in H. peel H. inversion H; subst. reflexivity.
  - inversion H; subst. reflexivity.
Qed.

(** A call without transfer other than a bonus withdrawal leaves the bonus
    registry alone. *)
Lemma flat_bonus_registry c s s' :
  pays c = false -> writes_bonus_registry c = false -> exec c s = Ok s' ->
  requestToEmployee s' = requestToEmployee s /\
  decryptionRequestIdBonus s' = decryptionRequestIdBonus s.
Proof.
  intros Hp Hw H. destruct c; try discriminate; simpl in H.
  - unfold fundPool in H. peel H. unfold requestDecryption in H. simpl in H.
    inversion H; subst. split; reflexivity.
  - unfold callbackVerifyPool in H. peel H. inversion H; subst.
    split; reflexivity.
  - unfold commitPerformance in H. peel H. inversion H; subst.
    split; reflexivity.
  - unfold withdrawRemaining in H. peel H. unfold requestDecryption in H.
    simpl in H. inversion H; subst. split; reflexivity.
  - inversion H; subst. split; reflexivity.
Qed.

Lemma receive_pool_slot rcv : forall s s',
  _status s <> 0 ->
  forallb (fun c => negb (writes_pool_slot c)) (calls_back rcv) = true ->
  receive rcv s = Some s' ->
  decryptionRequestIdPool s' = decryptionRequestIdPool s.
Proof.
  induction rcv as [| |c k IH]; simpl; intros s s' Hl Hok H.
  - inversion H; subst. reflexivity.
  - discriminate.
  - apply andb_true_iff in Hok as [Hc Hk]. apply negb_true_iff in Hc.
    destruct (exec c s) as [s1|e] eqn:E; simpl in H; [|apply IH; assumption].
    destruct (exec_locked _ _ _ Hl E) as [F _].
    rewrite (IH s1 s'); try assumption.
    + apply (flat_pool_slot c); try assumption.
      apply (locked_not_pays _ _ _ Hl E).
    + rewrite (fr_status _ _ F). assumption.
Qed.

Lemma receive_bonus_registry rcv : forall s s',
  _status s <> 0 ->
  forallb (fun c => negb (writes_bonus_registry c)) (calls_back rcv) = true ->
  receive rcv s = Some s' ->
  requestToEmployee s' = requestToEmployee s /\
  decryptionRequestIdBonus s' = decryptionRequestIdBonus s.
Proof.
  induction rcv as [| |c k IH]; simpl; intros s s' Hl Hok H.
  - inversion H; subst. split; reflexivity.
  - discriminate.
  - apply andb_true_iff in Hok as [Hc Hk]. apply negb_true_iff in Hc.
    destruct (exec c s) as [s1|e] eqn:E; simpl in H; [|apply IH; assumption].
    destruct (exec_locked _ _ _ Hl E) as [F _].
    destruct (IH s1 s') as [R1 R2]; try assumption.
    + rewrite (fr_status _ _ F). assumption.
    + destruct (flat_bonus_registry c s s1) as [R3 R4]; try assumption.
      * apply (locked_not_pays _ _ _ Hl E).
      * split; congruence.
Qed.

(** A pool callback that presents, with a valid proof, an id other than the
    one in the pool slot reverts with "Invalid request ID". *)
Lemma pool_callbacks_need_the_slot id c p s :
  id <> decryptionRequestIdPool s ->
  checkSignatures id c p s = Ok tt ->
  exec (CallbackVerifyPool id c p) s = Revert "Invalid request ID" /\
  (_status s = 0 ->
   forall rcv,
     exec (CallbackWithdrawRemaining id c p rcv) s = Revert "Invalid request ID").
Proof.
  intros Hne Hs. split.
  - simpl. unfold callbackVerifyPool. rewrite Hs. simpl.
    destruct (Z.eqb_spec id (decryptionRequestIdPool s)); [contradiction|].
    reflexivity.
  - intros Hst rcv. simpl. unfold callbackWithdrawRemaining, nonReentrant.
    rewrite Hst. simpl. unfold withdrawRemaining_reset.
    rewrite (checkSignatures_ext _ _ _ s) by reflexivity. rewrite Hs. simpl.
    destruct (Z.eqb_spec id (decryptionRequestIdPool s)); [contradiction|].
    reflexivity.
Qed.

(** C6, as the contract has it: the contract keeps two registries, not
    three.  A bonus request is recorded in the mapping from request id to
    employee and in the last-bonus-id slot; funding verification and
    remainder settlement share the one pool slot.  Opening a bonus request
    leaves the pool slot as it was, and so does settling one unless the
    recipient of the transfer itself funds, verifies a funding or asks for
    the remainder during the transfer.  Funding, verifying a funding and
    asking for the remainder leave the bonus registry as it was, and so does
    settling the remainder unless the recipient of the transfer itself
    withdraws a bonus during the transfer.  But a funding and a remainder
    request each write their new id over whatever the pool slot held, and
    from then on a funding or remainder callback that presents any other
    request id with a valid proof reverts with "Invalid request ID". *)
Theorem request_slots :
  (forall sender s s',
     exec (WithdrawBonus sender) s = Ok s' ->
     decryptionRequestIdPool s' = decryptionRequestIdPool s /\
     requestToEmployee s' (counterRequest s) = sender /\
     decryptionRequestIdBonus s' = counterRequest s) /\
  (forall id c p rcv s s',
     forallb (fun c => negb (writes_pool_slot c)) (calls_back rcv) = true ->
     exec (CallbackPayBonus id c p rcv) s = Ok s' ->
     decryptionRequestIdPool s' = decryptionRequestIdPool s) /\
  (forall c s s',
     match c with
     | FundPool _ _ _ _ | CallbackVerifyPool _ _ _ | WithdrawRemaining _ => True
     | _ => False
     end ->
     exec c s = Ok s' ->
     requestToEmployee s' = requestToEmployee s /\
     decryptionRequestIdBonus s' = decryptionRequestIdBonus s) /\
  (forall id c p rcv s s',
     forallb (fun c => negb (writes_bonus_registry c)) (calls_back rcv) = true ->
     exec (CallbackWithdrawRemaining id c p rcv) s = Ok s' ->
     requestToEmployee s' = requestToEmployee s /\
     decryptionRequestIdBonus s' = decryptionRequestIdBonus s) /\
  (forall c0 s s',
     match c0 with
     | FundPool _ _ _ _ | WithdrawRemaining _ => True
     | _ => False
     end ->
     exec c0 s = Ok s' ->
     decryptionRequestIdPool s' = counterRequest s /\
     forall id c p,
       id <> counterRequest s ->
       checkSignatures id c p s' = Ok tt ->
       exec (CallbackVerifyPool id c p) s' = Revert "Invalid request ID" /\
       (_status s' = 0 ->
        forall rcv,
          exec (CallbackWithdrawRemaining id c p rcv) s'
            = Revert "Invalid request ID")).
Proof.
  conjs.
  - intros sender s s' H. simpl in H. unfold withdrawBonus in H. peel H.
    inversion H; subst.
    unfold openBonusRequest, markWithdrawn, requestDecryption. simpl.
    rewrite fn_lookup_insert. conjs; reflexivity.
  - intros id c p rcv s s' Hok H. simpl in H.
    apply callbackPayBonus_Ok in H as (H0 & e & mid & mid' & Hd & Hb & Hr & ->).
    apply payBonus_debit_Ok in Hd as (_ & _ & _ & _ & _ & _ & Hm).
    apply receive_pool_slot in Hr; [| subst mid; simpl; lia | assumption].
    simpl. rewrite Hr. subst mid. reflexivity.
  - intros c s s' Hc H.
    apply (flat_bonus_registry c); [| | assumption];
      destruct c; try contradiction; reflexivity.
  - intros id c p rcv s s' Hok H. simpl in H.
    apply callbackWithdrawRemaining_Ok in H
      as (H0 & mid & mid' & Hd & Hb & Hr & ->).
    apply withdrawRemaining_reset_Ok in Hd as (_ & _ & _ & _ & _ & Hm).
    apply receive_bonus_registry in Hr as [R1 R2];
      [| subst mid; simpl; lia | assumption].
    simpl. rewrite R1, R2. subst mid. split; reflexivity.
  - intros c0 s s' Hc H.
    assert (Hslot : decryptionRequestIdPool s' = counterRequest s).
    { destruct c0; try contradiction; simpl in H.
      - unfold fundPool in H. peel H. unfold requestDecryption in H.
        simpl in H. inversion H; subst. reflexivity.
      - unfold withdrawRemaining in H. peel H. unfold requestDecryption in H.
        simpl in H. inversion H; subst. reflexivity. }
    split; [exact Hslot|].
    intros id c p Hne Hs.
    apply pool_callbacks_need_the_slot; [rewrite Hslot|]; assumption.
Qed.

Lemma request_slots_witness :
  decryptionRequestIdPool
    (run [CallbackPayBonus 1 64000 true
            (Reenter (CommitPerformance theManager 50 true Role.Junior) Accept)]
       bonus_requested)
  = decryptionRequestIdPool bonus_requested /\
  exec (CallbackWithdrawRemaining 1 1000000 true Accept)
    (run [FundPool theManager 5 5 true] remainder_requested)
  = Revert "Invalid request ID".
Proof.
  split.
  - apply (proj1 (proj2 request_slots) 1 64000 true
             (Reenter (CommitPerformance theManager 50 true Role.Junior) Accept)
             bonus_requested).
    + vm_compute. reflexivity.
    + vm_compute. reflexivity.
  - assert (Hc : match FundPool theManager 5 5 true with
                 | FundPool _ _ _ _ | WithdrawRemaining _ => True
                 | _ => False
                 end) by exact I.
    assert (H : exec (FundPool theManager 5 5 true) remainder_requested
                = Ok (run [FundPool theManager 5 5 true] remainder_requested))
      by (vm_compute; reflexivity).
    assert (Hne : 1 <> counterRequest remainder_requested)
      by (vm_compute; congruence).
    assert (Hs : checkSignatures 1 1000000 true
                   (run [FundPool theManager 5 5 true] remainder_requested)
                 = Ok tt) by (vm_compute; reflexivity).
    assert (Hst : _status (run [FundPool theManager 5 5 true] remainder_requested)
                  = 0) by (vm_compute; reflexivity).
    exact (proj2 (proj2 (proj2 (proj2 (proj2 (proj2 request_slots)))
             (FundPool theManager 5 5 true) remainder_requested _ Hc H)
             1 1000000 true Hne Hs) Hst Accept).
Defined.
